(** * Finance assistant: query analysis and response selection

    A shallow embedding of [services/huggingface_service.py] and
    [models/user_profile.py].

    Conventions of the embedding.
    - A Python [str] is a [string]; its characters are the 8-bit [ascii]
      of the standard library.  [str.lower] folds the letters A-Z and
      leaves every other character alone, [\w] is a letter, a digit or
      the underscore, and [str.isspace] is decided on the ASCII range;
      this is what Python does on ASCII text.  A character outside ASCII
      is carried through untouched (the emoji of the response templates
      are the bytes of their UTF-8 encoding).
    - A Python [dict] is an association list in insertion order, which is
      the iteration order of the source.
    - A Python number (the score of a sentiment, an amount of money) is a
      rational [Q]; no rounding is modelled.
    - A call that can raise returns a [result]; [try_except] is the
      [try: ... except Exception: ...] block. *)

From Stdlib Require Import String Ascii List Bool Arith Lia QArith.
Import ListNotations.
Close Scope Q_scope.
Open Scope string_scope.

(** ** Exceptions *)

Inductive exn : Type :=
| KeyError (key : string)
| ValueError (msg : string)
| ZeroDivisionError
| RuntimeError (msg : string).

Inductive result (A : Type) : Type :=
| Ok (a : A)
| Raise (e : exn).

Arguments Ok {A} a.
Arguments Raise {A} e.

Definition bind {A B : Type} (m : result A) (k : A -> result B) : result B :=
  match m with
  | Ok a => k a
  | Raise e => Raise e
  end.

Notation "x <- m ;; k" := (bind m (fun x => k))
  (at level 61, m at next level, right associativity).

(** [try: body  except Exception as e: handler e] *)
Definition try_except {A : Type} (body : result A) (handler : exn -> A) : A :=
  match body with
  | Ok a => a
  | Raise e => handler e
  end.

(** ** Python strings *)

Module Py.

Definition between (lo hi : nat) (c : ascii) : bool :=
  (lo <=? nat_of_ascii c)%nat && (nat_of_ascii c <=? hi)%nat.

Definition is_upper (c : ascii) : bool := between 65 90 c.
Definition is_lower (c : ascii) : bool := between 97 122 c.
Definition is_digit (c : ascii) : bool := between 48 57 c.

Definition lower_char (c : ascii) : ascii :=
  if is_upper c then ascii_of_nat (nat_of_ascii c + 32) else c.

(** [s.lower()] *)
Fixpoint lower (s : string) : string :=
  match s with
  | EmptyString => EmptyString
  | String c t => String (lower_char c) (lower t)
  end.

(** [needle in hay]: [needle] occurs somewhere in [hay]. *)
Fixpoint contains (needle hay : string) : bool :=
  String.prefix needle hay ||
  match hay with
  | EmptyString => false
  | String _ t => contains needle t
  end.

(** [s.split(sep)[0]]: the text before the first [sep]. *)
Fixpoint split_head (sep : ascii) (s : string) : string :=
  match s with
  | EmptyString => EmptyString
  | String c t => if Ascii.eqb c sep then EmptyString else String c (split_head sep t)
  end.

(** [\w] *)
Definition is_word (c : ascii) : bool :=
  is_upper c || is_lower c || is_digit c || Ascii.eqb c "_"%char.

(** [c.isspace()] *)
Definition is_space (c : ascii) : bool :=
  between 9 13 c || between 28 32 c.

(** Cut [s] into maximal runs of characters satisfying [p]; [cur] is the
    run being read, in reverse. *)
Fixpoint runs (p : ascii -> bool) (cur : list ascii) (s : string) : list string :=
  match s with
  | EmptyString =>
      match cur with
      | [] => []
      | _ => [string_of_list_ascii (rev cur)]
      end
  | String c t =>
      if p c then runs p (c :: cur) t
      else match cur with
           | [] => runs p [] t
           | _ => string_of_list_ascii (rev cur) :: runs p [] t
           end
  end.

(** [re.findall(r'\b\w+\b', s)]: the maximal runs of word characters. *)
Definition findall_words (s : string) : list string := runs is_word [] s.

(** [s.split()]: the maximal runs of characters that are not whitespace. *)
Definition split (s : string) : list string :=
  runs (fun c => negb (is_space c)) [] s.

(** [s.lstrip()] *)
Fixpoint lstrip (s : string) : string :=
  match s with
  | EmptyString => EmptyString
  | String c t => if is_space c then lstrip t else s
  end.

(** [s.rstrip()] *)
Fixpoint rstrip (s : string) : string :=
  match s with
  | EmptyString => EmptyString
  | String c t =>
      match rstrip t with
      | EmptyString => if is_space c then EmptyString else String c EmptyString
      | r => String c r
      end
  end.

(** [s.strip()] *)
Definition strip (s : string) : string := rstrip (lstrip s).

(** [x in xs] for a list of strings *)
Definition mem (x : string) (xs : list string) : bool :=
  existsb (String.eqb x) xs.

(** [sum(1 for x in xs if p(x))] *)
Definition count_if {A : Type} (p : A -> bool) (xs : list A) : nat :=
  list_sum (map (fun _ => 1) (filter p xs)).

(** [max(items, key=key)]: the first item whose key is maximal. *)
Definition max_by {A : Type} (key : A -> nat) (first : A) (rest : list A) : A :=
  fold_left (fun best x => if (key best <? key x)%nat then x else best) rest first.

(** [d.get(k, default)] on a dict kept as an association list. *)
Fixpoint dict_get {V : Type} (d : list (string * V)) (k : string) (default : V) : V :=
  match d with
  | [] => default
  | (k', v) :: d' => if String.eqb k' k then v else dict_get d' k default
  end.

(** [d[k]] *)
Fixpoint dict_item {V : Type} (d : list (string * V)) (k : string) : result V :=
  match d with
  | [] => Raise (KeyError k)
  | (k', v) :: d' => if String.eqb k' k then Ok v else dict_item d' k
  end.

(** [x or default] for an optional string: [None] and [''] are falsy. *)
Definition str_or (x : option string) (default : string) : string :=
  match x with
  | Some EmptyString | None => default
  | Some s => s
  end.

End Py.

(** ** models/user_profile.py *)

Inductive UserType : Type := STUDENT | PROFESSIONAL.
Inductive AgeRange : Type := AGE_18_25 | AGE_26_35 | AGE_36_50 | AGE_51_ABOVE.
Inductive IncomeLevel : Type :=
  LEVEL_0_15000 | LEVEL_15001_30000 | LEVEL_30001_60000 | LEVEL_60001_100000 | LEVEL_100K_PLUS.
Inductive RiskTolerance : Type := CONSERVATIVE | MODERATE | AGGRESSIVE.
Inductive CommunicationStyle : Type := SIMPLE | DETAILED.

(** A Python [Enum]: its members in declaration order and the value of each. *)
Class PyEnum (E : Type) : Type := {
  members : list E;
  value : E -> string
}.

#[export] Instance UserType_enum : PyEnum UserType := {
  members := [STUDENT; PROFESSIONAL];
  value m := match m with STUDENT => "student" | PROFESSIONAL => "professional" end
}.

#[export] Instance AgeRange_enum : PyEnum AgeRange := {
  members := [AGE_18_25; AGE_26_35; AGE_36_50; AGE_51_ABOVE];
  value m := match m with
             | AGE_18_25 => "18-25" | AGE_26_35 => "26-35"
             | AGE_36_50 => "36-50" | AGE_51_ABOVE => "51+"
             end
}.

#[export] Instance IncomeLevel_enum : PyEnum IncomeLevel := {
  members := [LEVEL_0_15000; LEVEL_15001_30000; LEVEL_30001_60000;
              LEVEL_60001_100000; LEVEL_100K_PLUS];
  value m := match m with
             | LEVEL_0_15000 => "0-15000" | LEVEL_15001_30000 => "15001-30000"
             | LEVEL_30001_60000 => "30001-60000"
             | LEVEL_60001_100000 => "60001-100000"
             | LEVEL_100K_PLUS => "100000+"
             end
}.

#[export] Instance RiskTolerance_enum : PyEnum RiskTolerance := {
  members := [CONSERVATIVE; MODERATE; AGGRESSIVE];
  value m := match m with
             | CONSERVATIVE => "conservative" | MODERATE => "moderate"
             | AGGRESSIVE => "aggressive"
             end
}.

#[export] Instance CommunicationStyle_enum : PyEnum CommunicationStyle := {
  members := [SIMPLE; DETAILED];
  value m := match m with SIMPLE => "simple" | DETAILED => "detailed" end
}.

(** [E(v)]: the member whose value is [v]; [ValueError] when there is none. *)
Fixpoint enum_find {E : Type} (val : E -> string) (ms : list E) (v : string) : option E :=
  match ms with
  | [] => None
  | m :: ms' => if String.eqb (val m) v then Some m else enum_find val ms' v
  end.

Definition enum_call (E : Type) `{PyEnum E} (v : string) : result E :=
  match enum_find value members v with
  | Some m => Ok m
  | None => Raise (ValueError v)
  end.

Record FinancialGoal : Type := {
  goal_type : string;
  target_amount : Q;
  timeline : string;
  priority : string
}.

Record UserProfile : Type := {
  user_id : option string;
  name : option string;
  user_type : option UserType;
  age_range : option AgeRange;
  income_level : option IncomeLevel;
  financial_goals : list FinancialGoal;
  risk_tolerance : option RiskTolerance;
  communication_preference : option CommunicationStyle;
  location : option string;
  employment_status : option string;
  monthly_expenses : option Q;
  current_savings : option Q;
  debt_amount : option Q
}.

(** [UserProfile()] *)
Definition new_profile : UserProfile := {|
  user_id := None; name := None; user_type := None; age_range := None;
  income_level := None; financial_goals := []; risk_tolerance := None;
  communication_preference := None; location := None;
  employment_status := None; monthly_expenses := None;
  current_savings := None; debt_amount := None
|}.

(** What a setter is called with: a member of the enumeration
    ([isinstance(value, E)]) or a raw string. *)
Inductive setter_arg (E : Type) : Type :=
| Member (m : E)
| Raw (s : string).

Arguments Member {E} m.
Arguments Raw {E} s.

(** [s.replace(a, b)] for one-character [a] and [b]. *)
Fixpoint replace_char (a b : ascii) (s : string) : string :=
  match s with
  | EmptyString => EmptyString
  | String c t => String (if Ascii.eqb c a then b else c) (replace_char a b t)
  end.

Definition with_user_type (p : UserProfile) (v : UserType) : UserProfile := {|
  user_id := user_id p; name := name p; user_type := Some v;
  age_range := age_range p; income_level := income_level p;
  financial_goals := financial_goals p; risk_tolerance := risk_tolerance p;
  communication_preference := communication_preference p;
  location := location p; employment_status := employment_status p;
  monthly_expenses := monthly_expenses p; current_savings := current_savings p;
  debt_amount := debt_amount p
|}.

Definition with_age_range (p : UserProfile) (v : AgeRange) : UserProfile := {|
  user_id := user_id p; name := name p; user_type := user_type p;
  age_range := Some v; income_level := income_level p;
  financial_goals := financial_goals p; risk_tolerance := risk_tolerance p;
  communication_preference := communication_preference p;
  location := location p; employment_status := employment_status p;
  monthly_expenses := monthly_expenses p; current_savings := current_savings p;
  debt_amount := debt_amount p
|}.

Definition with_income_level (p : UserProfile) (v : IncomeLevel) : UserProfile := {|
  user_id := user_id p; name := name p; user_type := user_type p;
  age_range := age_range p; income_level := Some v;
  financial_goals := financial_goals p; risk_tolerance := risk_tolerance p;
  communication_preference := communication_preference p;
  location := location p; employment_status := employment_status p;
  monthly_expenses := monthly_expenses p; current_savings := current_savings p;
  debt_amount := debt_amount p
|}.

Definition with_risk_tolerance (p : UserProfile) (v : RiskTolerance) : UserProfile := {|
  user_id := user_id p; name := name p; user_type := user_type p;
  age_range := age_range p; income_level := income_level p;
  financial_goals := financial_goals p; risk_tolerance := Some v;
  communication_preference := communication_preference p;
  location := location p; employment_status := employment_status p;
  monthly_expenses := monthly_expenses p; current_savings := current_savings p;
  debt_amount := debt_amount p
|}.

Definition with_communication_preference (p : UserProfile) (v : CommunicationStyle)
  : UserProfile := {|
  user_id := user_id p; name := name p; user_type := user_type p;
  age_range := age_range p; income_level := income_level p;
  financial_goals := financial_goals p; risk_tolerance := risk_tolerance p;
  communication_preference := Some v;
  location := location p; employment_status := employment_status p;
  monthly_expenses := monthly_expenses p; current_savings := current_savings p;
  debt_amount := debt_amount p
|}.

(** The setters.  The profile is the receiver [self]; a setter that raises
    leaves no new profile behind. *)
Definition set_user_type (v : setter_arg UserType) (self : UserProfile)
  : result UserProfile :=
  match v with
  | Member m => Ok (with_user_type self m)
  | Raw s => m <- enum_call UserType (Py.lower s) ;; Ok (with_user_type self m)
  end.

Definition set_age_range (v : setter_arg AgeRange) (self : UserProfile)
  : result UserProfile :=
  match v with
  | Member m => Ok (with_age_range self m)
  | Raw s =>
      let normalized := replace_char "_" "-" s in
      m <- enum_call AgeRange normalized ;; Ok (with_age_range self m)
  end.

Definition set_income_level (v : setter_arg IncomeLevel) (self : UserProfile)
  : result UserProfile :=
  match v with
  | Member m => Ok (with_income_level self m)
  | Raw s =>
      let normalized := replace_char "_" "-" s in
      m <- enum_call IncomeLevel normalized ;; Ok (with_income_level self m)
  end.

Definition set_risk_tolerance (v : setter_arg RiskTolerance) (self : UserProfile)
  : result UserProfile :=
  match v with
  | Member m => Ok (with_risk_tolerance self m)
  | Raw s => m <- enum_call RiskTolerance (Py.lower s) ;; Ok (with_risk_tolerance self m)
  end.

Definition set_communication_preference (v : setter_arg CommunicationStyle)
  (self : UserProfile) : result UserProfile :=
  match v with
  | Member m => Ok (with_communication_preference self m)
  | Raw s =>
      m <- enum_call CommunicationStyle (Py.lower s) ;;
      Ok (with_communication_preference self m)
  end.

(** ** services/huggingface_service.py *)

Record Entity : Type := {
  entity : string;
  entity_value : string;
  entity_confidence : Q
}.

Record FinancialQuery : Type := {
  original_query : string;
  intent : string;
  entities : list Entity;
  keywords : list string;
  sentiment : string;
  confidence : Q;
  category : string
}.

Record PersonalizedResponse : Type := {
  content : string;
  tone : string;
  complexity_level : string;
  recommendations : list string;
  additional_resources : list string;
  follow_up_questions : list string
}.

(** The dict a sentiment pipeline returns: [{'label': ..., 'score': ...}]. *)
Record SentimentResult : Type := {
  label : string;
  score : Q
}.

(** The optional model adapter: [pipeline("sentiment-analysis", ...)],
    already applied to [[0]]. *)
Definition Analyzer : Type := string -> result SentimentResult.

Record HuggingFaceFinanceService : Type := {
  sentiment_analyzer : option Analyzer
}.

(** [self.lightweight_mode = True] *)
Definition lightweight_mode : bool := true.

(** [_initialize_models]: [pipeline] is the outcome of loading the model. *)
Definition initialize_models (transformers_available : bool) (pipeline : result Analyzer)
  : option Analyzer :=
  if lightweight_mode || negb transformers_available then None
  else try_except (a <- pipeline ;; Ok (Some a)) (fun _ => None).

(** [HuggingFaceFinanceService()] *)
Definition new_service (transformers_available : bool) (pipeline : result Analyzer)
  : HuggingFaceFinanceService :=
  {| sentiment_analyzer := initialize_models transformers_available pipeline |}.

Definition financial_intents : list (string * list string) := [
  ("savings_advice", ["save"; "saving"; "savings"; "emergency fund"; "rainy day"]);
  ("investment_advice", ["invest"; "investment"; "portfolio"; "stocks"; "bonds"; "retirement"; "401k"]);
  ("budgeting_help", ["budget"; "expense"; "spending"; "monthly"; "track"; "money"]);
  ("debt_management", ["debt"; "loan"; "credit"; "pay off"; "consolidate"; "student loan"]);
  ("tax_planning", ["tax"; "deduction"; "IRS"; "filing"; "refund"; "tax return"]);
  ("financial_education", ["learn"; "explain"; "what is"; "how does"; "understand"])
].

Definition positive_words : list string :=
  ["good"; "great"; "excited"; "happy"; "awesome"; "excellent"; "love"; "like"; "want"; "help"].

Definition negative_words : list string :=
  ["bad"; "terrible"; "worried"; "concerned"; "problem"; "debt"; "struggling"; "confused"; "lost"].

Definition positive_count (text : string) : nat :=
  Py.count_if (fun word => Py.contains word (Py.lower text)) positive_words.

Definition negative_count (text : string) : nat :=
  Py.count_if (fun word => Py.contains word (Py.lower text)) negative_words.

(** [_fallback_sentiment_analysis] *)
Definition fallback_sentiment_analysis (text : string) : SentimentResult :=
  if (negative_count text <? positive_count text)%nat then
    {| label := "positive"; score := 7 # 10 |}
  else if (positive_count text <? negative_count text)%nat then
    {| label := "negative"; score := 7 # 10 |}
  else
    {| label := "neutral"; score := 6 # 10 |}.

Definition label_mapping : list (string * string) := [
  ("LABEL_0", "negative"); ("LABEL_1", "neutral"); ("LABEL_2", "positive");
  ("NEGATIVE", "negative"); ("NEUTRAL", "neutral"); ("POSITIVE", "positive")
].

(** [_analyze_sentiment] *)
Definition analyze_sentiment (self : HuggingFaceFinanceService) (text : string)
  : SentimentResult :=
  match sentiment_analyzer self with
  | Some analyzer =>
      try_except
        (r <- analyzer text ;;
         Ok {| label := Py.dict_get label_mapping (label r) (Py.lower (label r));
               score := score r |})
        (fun _ => fallback_sentiment_analysis text)
  | None => fallback_sentiment_analysis text
  end.

(** The score of one intent: [sum(1 for keyword in keywords if keyword in query_lower)] *)
Definition intent_score (query_lower : string) (keywords : list string) : nat :=
  Py.count_if (fun keyword => Py.contains keyword query_lower) keywords.

(** The dict [intent_scores], built in the order of [financial_intents]. *)
Fixpoint intent_scores (query_lower : string) (table : list (string * list string))
  : list (string * nat) :=
  match table with
  | [] => []
  | (intent, keywords) :: table' =>
      let score := intent_score query_lower keywords in
      if (0 <? score)%nat then (intent, score) :: intent_scores query_lower table'
      else intent_scores query_lower table'
  end.

(** [_classify_intent] *)
Definition classify_intent (query : string) : string * string :=
  let query_lower := Py.lower query in
  match intent_scores query_lower financial_intents with
  | first :: rest =>
      let best_intent := fst (Py.max_by snd first rest) in
      (best_intent, Py.split_head "_" best_intent)
  | [] => ("general_financial_advice", "general")
  end.

Definition financial_terms : list string := [
  "save"; "saving"; "savings"; "invest"; "investment"; "budget"; "money";
  "debt"; "loan"; "credit"; "tax"; "retirement"; "emergency"; "fund";
  "stock"; "bond"; "portfolio"; "income"; "expense"; "financial";
  "dollar"; "cash"; "bank"; "account"; "401k"; "ira"
].

(** [_extract_keywords], over the tokenizer it calls: the [except] branch is
    taken when [findall] raises. *)
Definition extract_keywords_with (findall : string -> result (list string)) (text : string)
  : list string :=
  try_except
    (words <- findall (Py.lower text) ;;
     let keywords := filter (fun word => Py.mem word financial_terms) words in
     Ok (firstn 5 keywords))
    (fun _ => firstn 3 (Py.split text)).

(** [re.findall] on a string and a fixed pattern does not raise. *)
Definition re_findall_words (s : string) : result (list string) :=
  Ok (Py.findall_words s).

Definition extract_keywords (text : string) : list string :=
  extract_keywords_with re_findall_words text.

Definition entity_patterns : list (string * list string) := [
  ("MONEY", ["$"; "dollar"; "money"; "income"; "salary"]);
  ("PERCENTAGE", ["%"; "percent"; "rate"]);
  ("TIME", ["month"; "year"; "monthly"; "annual"; "weekly"]);
  ("FINANCIAL_PRODUCT", ["401k"; "ira"; "savings account"; "credit card"; "loan"])
].

(** [_extract_entities] *)
Definition extract_entities (text : string) : list Entity :=
  let text_lower := Py.lower text in
  flat_map (fun '(entity_type, patterns) =>
    flat_map (fun pattern =>
      if Py.contains pattern text_lower
      then [{| entity := entity_type; entity_value := pattern; entity_confidence := 8 # 10 |}]
      else []) patterns) entity_patterns.

(** [_fallback_query_analysis] *)
Definition fallback_query_analysis (query : string) : FinancialQuery :=
  let '(intent, category) := classify_intent query in
  let sentiment := fallback_sentiment_analysis query in
  {| original_query := query; intent := intent; entities := [];
     keywords := extract_keywords query; sentiment := label sentiment;
     confidence := score sentiment; category := category |}.

(** [analyze_financial_query] *)
Definition analyze_financial_query (self : HuggingFaceFinanceService)
  (query : string) (user_profile : UserProfile) : FinancialQuery :=
  try_except
    (let sentiment_result := analyze_sentiment self query in
     let '(intent, category) := classify_intent query in
     let keywords := extract_keywords query in
     let entities := extract_entities query in
     Ok {| original_query := query; intent := intent; entities := entities;
           keywords := keywords; sentiment := Py.lower (label sentiment_result);
           confidence := score sentiment_result; category := category |})
    (fun _ => fallback_query_analysis query).

(** One bucket of a template bank: ['content'] is always there, the other
    keys are read with [.get(key, default)]. *)
Record ResponseData : Type := {
  data_content : string;
  data_recommendations : option (list string);
  data_resources : option (list string);
  data_follow_ups : option (list string)
}.

(** [d.get(key, default)] for a key a bucket may lack. *)
Definition get_or {A : Type} (x : option A) (default : A) : A :=
  match x with
  | Some a => a
  | None => default
  end.

(** The f-string templates of [_generate_student_response]. *)
Definition student_savings_content (user_profile : UserProfile) : string :=
  "
                Hey "
  ++ Py.str_or (name user_profile) "there" ++
  "! 🎓 Great question about saving money as a student!

                Here's my advice tailored for students:

                💡 **Start Small**: Even $25-50 per month makes a huge difference over time!
                🎯 **Emergency Fund First**: Try to build a small emergency fund of $500-1000
                📱 **Use Student Discounts**: Take advantage of student pricing everywhere
                💰 **Part-time Job**: Consider a campus job or paid internship

                **Quick Student Tips:**
                • Use the 50/30/20 rule: 50% needs, 30% wants, 20% savings
                • Try apps like Mint or YNAB (free for students!)
                • Look for high-yield savings accounts with no minimums
                • Avoid lifestyle inflation when you get financial aid refunds
                ".

Definition student_investment_content : string :=
  "
                Awesome that you're thinking about investing as a student! 📈

                **Why Starting Early is Your Superpower:**
                🚀 Time is your biggest advantage - compound interest is magical!
                💰 Even $10-50/month can grow to thousands over time
                📚 Learning about investing now sets you up for life

                **Student-Friendly Investment Options:**
                • **Roth IRA**: Perfect for students - tax-free growth!
                • **Target-Date Funds**: Simple, diversified, hands-off
                • **Index Funds**: Low fees, broad market exposure
                • **Micro-investing Apps**: Start with spare change (Acorns, Stash)

                **Simple Strategy:**
                1. Build $500 emergency fund first
                2. Open a Roth IRA with Fidelity/Vanguard (no minimums!)
                3. Invest in a target-date fund matching your graduation + 40 years
                4. Invest any financial aid refunds or gift money
                ".

Definition student_budgeting_content : string :=
  "
                Perfect time to learn budgeting as a student! 📊

                **Student Budget Basics:**
                🏫 **Fixed Costs**: Tuition, rent, meal plan, textbooks
                🎯 **Variable Costs**: Food, entertainment, transportation, personal items
                💰 **Income Sources**: Part-time job, financial aid, family support

                **Simple Student Budget Method:**
                1. List all monthly income sources
                2. List all fixed expenses (things you must pay)
                3. Set aside $50-100 for savings/emergency fund
                4. Divide remaining money: 70% needs, 30% wants

                **Money-Saving Student Hacks:**
                • Buy used textbooks or rent them
                • Use student discounts everywhere
                • Cook simple meals instead of eating out
                • Take advantage of free campus activities
                ".

(** The f-string templates of [_generate_professional_response]. *)
Definition professional_investment_content (user_profile : UserProfile) : string :=
  "
                Excellent question about investment strategy! 💼

                Based on your profile as a working professional, here's a comprehensive approach:

                **Portfolio Allocation Strategy:**
                🎯 **Age-Based Rule**: Consider 100 - your age = stock percentage
                ⚖️ **Risk Tolerance**: Your "
  ++ match risk_tolerance user_profile with
     | Some r => value r
     | None => "moderate"
     end ++
  " profile suggests balanced growth
                🌍 **Diversification**: Mix of domestic/international, large/small cap

                **Tax-Advantaged Account Priority:**
                1. **401(k) Match**: Contribute enough for full employer match (free money!)
                2. **Roth IRA**: $6,000/year if income allows
                3. **Additional 401(k)**: Up to $22,500/year limit
                4. **Taxable Account**: For additional investments

                **Advanced Strategies:**
                • **Tax-Loss Harvesting**: Offset gains with strategic losses
                • **Asset Location**: Hold tax-inefficient investments in tax-advantaged accounts
                • **Rebalancing**: Quarterly review and rebalance to target allocation
                ".

Definition professional_savings_content : string :=
  "
                Strategic savings approach for professionals: 💰

                **Savings Rate Targets:**
                🎯 **Emergency Fund**: 3-6 months expenses in high-yield savings
                📈 **Savings Rate**: Aim for 20% of gross income
                🏠 **Goal-Based Saving**: Separate accounts for different objectives

                **High-Yield Account Strategy:**
                • Online banks typically offer 4-5% APY
                • Consider CD ladders for portion of emergency fund
                • Money market accounts for easy access

                **Advanced Savings Techniques:**
                • **Automated Transfers**: Set up automatic savings on payday
                • **Pay Yourself First**: Save before discretionary spending
                • **Bonus Strategy**: Save 50% of bonuses, raises, tax refunds
                ".

(** [base_responses] of [_generate_student_response] *)
Definition student_base_responses (user_profile : UserProfile)
  : list (string * ResponseData) := [
  ("savings", {|
     data_content := student_savings_content user_profile;
     data_recommendations := Some [
       "Open a high-yield savings account with no minimum balance";
       "Set up automatic transfers of $25-50 per month";
       "Track spending for one month to identify money leaks";
       "Apply for student discounts on subscriptions and services"
     ];
     data_resources := Some [
       "Student Budget Template";
       "Campus Financial Counseling Services";
       "Free Financial Literacy Apps"
     ];
     data_follow_ups := Some [
       "What's your biggest monthly expense besides tuition?";
       "Do you have any income from part-time work?";
       "Would you like help setting up your first budget?"
     ] |});
  ("investment", {|
     data_content := student_investment_content;
     data_recommendations := Some [
       "Open a Roth IRA - perfect for students with low income";
       "Start with a target-date fund for simplicity";
       "Use micro-investing apps to begin with small amounts";
       "Take a free online investing course"
     ];
     data_resources := Some [
       "Student Investment Guide";
       "Roth IRA Comparison Chart";
       "Free Investment Courses"
     ];
     data_follow_ups := Some [
       "Do you have any earned income this year?";
       "What's your investment timeline?";
       "Are you interested in learning about index funds?"
     ] |});
  ("budgeting", {|
     data_content := student_budgeting_content;
     data_recommendations := Some [
       "Use a budgeting app designed for students";
       "Track every expense for one week to see patterns";
       "Set up a separate savings account";
       "Look for student discounts on everything you buy"
     ];
     data_resources := None;
     data_follow_ups := None |})
].

(** [_generate_student_response] *)
Definition generate_student_response (query : FinancialQuery) (user_profile : UserProfile)
  : result PersonalizedResponse :=
  let base_responses := student_base_responses user_profile in
  let category := category query in
  savings <- Py.dict_item base_responses "savings" ;;
  let response_data :=
    Py.dict_get base_responses category (Py.dict_get base_responses "savings" savings) in
  Ok {| content := Py.strip (data_content response_data);
        tone := "friendly and educational";
        complexity_level := "simple";
        recommendations := get_or (data_recommendations response_data) [];
        additional_resources := get_or (data_resources response_data) [];
        follow_up_questions := get_or (data_follow_ups response_data) [] |}.

(** [base_responses] of [_generate_professional_response] *)
Definition professional_base_responses (user_profile : UserProfile)
  : list (string * ResponseData) := [
  ("investment", {|
     data_content := professional_investment_content user_profile;
     data_recommendations := Some [
       "Maximize 401(k) employer match immediately";
       "Open and fund Roth IRA if income eligible";
       "Consider low-cost index funds (VTSAX, FXNAX)";
       "Implement tax-loss harvesting strategy";
       "Review and rebalance portfolio quarterly"
     ];
     data_resources := Some [
       "Advanced Portfolio Management Tools";
       "Tax-Loss Harvesting Guide";
       "Professional Financial Planning Resources"
     ];
     data_follow_ups := None |});
  ("savings", {|
     data_content := professional_savings_content;
     data_recommendations := None;
     data_resources := None;
     data_follow_ups := None |})
].

(** [_generate_professional_response] *)
Definition generate_professional_response (query : FinancialQuery)
  (user_profile : UserProfile) : result PersonalizedResponse :=
  let base_responses := professional_base_responses user_profile in
  let category := category query in
  investment <- Py.dict_item base_responses "investment" ;;
  let response_data :=
    Py.dict_get base_responses category
      (Py.dict_get base_responses "investment" investment) in
  Ok {| content := Py.strip (data_content response_data);
        tone := "professional and detailed";
        complexity_level := "advanced";
        recommendations := get_or (data_recommendations response_data) [];
        additional_resources := get_or (data_resources response_data) [];
        follow_up_questions := get_or (data_follow_ups response_data) [
          "What's your current asset allocation?";
          "Are you maximizing all tax-advantaged accounts?";
          "Would you like specific fund recommendations?"
        ] |}.

(** [_generate_general_response] *)
Definition generate_general_response (query : FinancialQuery) (user_profile : UserProfile)
  : result PersonalizedResponse :=
  Ok {| content := "Thanks for your question! I'd be happy to provide personalized advice once you complete your profile setup. This helps me tailor recommendations to your specific situation and goals.";
        tone := "helpful";
        complexity_level := "medium";
        recommendations := ["Complete your user profile for personalized advice"];
        additional_resources := ["Financial Planning Basics"];
        follow_up_questions := ["Would you like to complete your profile setup?"] |}.

(** [_generate_fallback_response] *)
Definition generate_fallback_response (query : FinancialQuery) : PersonalizedResponse :=
  {| content := "I'm here to help with your financial questions! Could you please rephrase your question or be more specific about what you'd like to know?";
     tone := "helpful";
     complexity_level := "simple";
     recommendations := ["Try asking about savings, investments, budgeting, or debt management"];
     additional_resources := ["Financial FAQ"];
     follow_up_questions := ["What specific financial topic would you like help with?"] |}.

(** The three generators [generate_personalized_response] dispatches to,
    as methods of the service. *)
Record Generators : Type := {
  student_response : FinancialQuery -> UserProfile -> result PersonalizedResponse;
  professional_response : FinancialQuery -> UserProfile -> result PersonalizedResponse;
  general_response : FinancialQuery -> UserProfile -> result PersonalizedResponse
}.

(** The body of the [try] block of [generate_personalized_response]. *)
Definition dispatch_response (g : Generators) (query : FinancialQuery)
  (user_profile : UserProfile) : result PersonalizedResponse :=
  match user_type user_profile with
  | Some STUDENT => student_response g query user_profile
  | Some PROFESSIONAL => professional_response g query user_profile
  | None => general_response g query user_profile
  end.

(** [generate_personalized_response], over the generators it calls. *)
Definition generate_personalized_response_with (g : Generators) (query : FinancialQuery)
  (user_profile : UserProfile) : PersonalizedResponse :=
  try_except (dispatch_response g query user_profile)
             (fun _ => generate_fallback_response query).

(** The generators of the service as it is written. *)
Definition service_generators : Generators := {|
  student_response := generate_student_response;
  professional_response := generate_professional_response;
  general_response := generate_general_response
|}.

(** [generate_personalized_response] *)
Definition generate_personalized_response (query : FinancialQuery)
  (user_profile : UserProfile) : PersonalizedResponse :=
  generate_personalized_response_with service_generators query user_profile.

(** [a / b] on numbers: [ZeroDivisionError] when [b] is zero. *)
Definition py_div (a b : Q) : result Q :=
  if Qeq_bool b 0 then Raise ZeroDivisionError else Ok (a / b)%Q.

(** [x or 0] for an optional number: [None] and [0] are falsy. *)
Definition num_or_zero (x : option Q) : Q :=
  match x with
  | Some q => if Qeq_bool q 0 then 0%Q else q
  | None => 0%Q
  end.

(** [a / b if b > 0 else 0] *)
Definition guarded_ratio (a b : Q) : result Q :=
  if negb (Qle_bool b 0) then py_div a b else Ok 0%Q.

(** The coverage [emergency_months] that
    [_generate_professional_budget_summary] prints with one decimal. *)
Definition emergency_months (user_profile : UserProfile) : result Q :=
  let monthly_expenses := num_or_zero (monthly_expenses user_profile) in
  let current_savings := num_or_zero (current_savings user_profile) in
  guarded_ratio current_savings monthly_expenses.

(** The coverage [savings_months] of [_generate_student_budget_summary]. *)
Definition savings_months (user_profile : UserProfile) : result Q :=
  let monthly_expenses := num_or_zero (monthly_expenses user_profile) in
  let current_savings := num_or_zero (current_savings user_profile) in
  guarded_ratio current_savings monthly_expenses.

(** ** The classifier as the specification words it

    The specification counts keyword matches case-insensitively.  This
    classifier is the one of the source with that single difference: the
    keyword is folded like the query. *)

Definition spec_intent_score (query : string) (keywords : list string) : nat :=
  Py.count_if (fun keyword => Py.contains (Py.lower keyword) (Py.lower query)) keywords.

Fixpoint spec_intent_scores (query : string) (table : list (string * list string))
  : list (string * nat) :=
  match table with
  | [] => []
  | (intent, keywords) :: table' =>
      let score := spec_intent_score query keywords in
      if (0 <? score)%nat then (intent, score) :: spec_intent_scores query table'
      else spec_intent_scores query table'
  end.

Definition spec_classify_intent (query : string) : string * string :=
  match spec_intent_scores query financial_intents with
  | first :: rest =>
      let best_intent := fst (Py.max_by snd first rest) in
      (best_intent, Py.split_head "_" best_intent)
  | [] => ("general_financial_advice", "general")
  end.

(** ** Swapping sentiment words

    A text in which some places hold a word of the positive lexicon: a
    sequence of literal pieces and slots.  A slot carries the positive
    word the text has there and the negative word that replaces it. *)

Inductive piece : Type :=
| Lit (s : string)
| Slot (pos neg : string).

Fixpoint render_positive (ps : list piece) : string :=
  match ps with
  | [] => EmptyString
  | Lit s :: ps' => s ++ render_positive ps'
  | Slot pos _ :: ps' => pos ++ render_positive ps'
  end.

Fixpoint render_negative (ps : list piece) : string :=
  match ps with
  | [] => EmptyString
  | Lit s :: ps' => s ++ render_negative ps'
  | Slot _ neg :: ps' => neg ++ render_negative ps'
  end.

(** The positive words the slots hold. *)
Fixpoint slot_words (ps : list piece) : list string :=
  match ps with
  | [] => []
  | Lit _ :: ps' => slot_words ps'
  | Slot pos _ :: ps' => pos :: slot_words ps'
  end.

(** Every slot swaps a positive-lexicon word for a negative-lexicon word. *)
Fixpoint slots_in_lexicon (ps : list piece) : bool :=
  match ps with
  | [] => true
  | Lit _ :: ps' => slots_in_lexicon ps'
  | Slot pos neg :: ps' =>
      Py.mem pos positive_words && Py.mem neg negative_words && slots_in_lexicon ps'
  end.

(** The lexicon hits of the text are exactly the words in its slots: a
    positive word is found in the text if and only if a slot holds it, and
    no negative word is found. *)
Definition hits_are_slot_words (ps : list piece) : Prop :=
  (forall w, In w positive_words ->
     (Py.contains w (Py.lower (render_positive ps)) = true <-> In w (slot_words ps))) /\
  (forall w, In w negative_words ->
     Py.contains w (Py.lower (render_positive ps)) = false).

(** ** What a setter may do with a raw string

    Either it assigns a member whose value is the normalized string, or it
    raises [ValueError] and no member has that value.  The profile a setter
    returns differs from the one it received in the assigned field only. *)

Definition assigns_or_rejects {E : Type} `{PyEnum E} (normalized : string)
  (assign : UserProfile -> E -> UserProfile) (self : UserProfile)
  (outcome : result UserProfile) : Prop :=
  match outcome with
  | Ok self' => exists m : E, value m = normalized /\ self' = assign self m
  | Raise e => e = ValueError normalized /\ forall m : E, value m <> normalized
  end.

(** ** Text that survives [strip]

    [has_nonspace s] holds when some character of [s] is not whitespace. *)

Fixpoint has_nonspace (s : string) : bool :=
  match s with
  | EmptyString => false
  | String c t => negb (Py.is_space c) || has_nonspace t
  end.

(** * The rest of the code

    ** models/user_profile.py: goals and completion *)

Definition with_financial_goals (p : UserProfile) (goals : list FinancialGoal)
  : UserProfile := {|
  user_id := user_id p; name := name p; user_type := user_type p;
  age_range := age_range p; income_level := income_level p;
  financial_goals := goals; risk_tolerance := risk_tolerance p;
  communication_preference := communication_preference p;
  location := location p; employment_status := employment_status p;
  monthly_expenses := monthly_expenses p; current_savings := current_savings p;
  debt_amount := debt_amount p
|}.

(** [add_financial_goal] *)
Definition add_financial_goal (goal_type : string) (target_amount : Q)
  (timeline priority : string) (self : UserProfile) : UserProfile :=
  let goal := {| goal_type := goal_type; target_amount := target_amount;
                 timeline := timeline; priority := priority |} in
  with_financial_goals self (financial_goals self ++ [goal])%list.

(** [add_financial_goal] called once for each goal of a list, in order. *)
Definition add_goals (goals : list FinancialGoal) (self : UserProfile) : UserProfile :=
  fold_left
    (fun profile g =>
       add_financial_goal (goal_type g) (target_amount g) (timeline g) (priority g) profile)
    goals self.

(** [bool(x)] for an optional string: [None] and [''] are false. *)
Definition truthy_str (x : option string) : bool :=
  match x with
  | Some (String _ _) => true
  | _ => false
  end.

(** [bool(x)] for an optional enumeration member: members are true. *)
Definition truthy_member {E : Type} (x : option E) : bool :=
  match x with
  | Some _ => true
  | None => false
  end.

(** [bool(getattr(self, field))] for the fields of [required_fields], in
    their order. *)
Definition required_fields_filled (self : UserProfile) : list bool := [
  truthy_str (name self);
  truthy_member (user_type self);
  truthy_member (age_range self);
  truthy_member (income_level self);
  truthy_member (risk_tolerance self);
  truthy_member (communication_preference self)
].

(** [sum(bool(...) for field in required_fields)] *)
Definition filled (self : UserProfile) : nat :=
  list_sum (map (fun b : bool => if b then 1 else 0) (required_fields_filled self)).

(** [profile_completion_percentage] *)
Definition profile_completion_percentage (self : UserProfile) : Q :=
  ((inject_Z (Z.of_nat (filled self))
    / inject_Z (Z.of_nat (length (required_fields_filled self)))) * 100)%Q.

(** [is_profile_complete] *)
Definition is_profile_complete (self : UserProfile) : bool :=
  Qeq_bool (profile_completion_percentage self) 100.

(** ** pages/chat.py: the welcome message *)

(** An attribute of [None] is read. *)
Inductive attribute_result (A : Type) : Type :=
| Returned (a : A)
| AttributeError (attribute : string).

Arguments Returned {A} a.
Arguments AttributeError {A} attribute.

Definition student_welcome (name : string) : string :=
  "
        Hi "
  ++ name ++
  "! 👋 Welcome to your personal finance assistant!

        As a student, I can help you with:
        🎯 Building your first budget
        💰 Smart saving strategies
        📚 Managing student loans
        🍕 Cutting expenses without losing fun
        📈 Basic investing concepts

        What financial question can I help you with today?
        ".

Definition professional_welcome (name : string) : string :=
  "
        Hello "
  ++ name ++
  "! 👋 Welcome to your personal finance assistant!

        As a professional, I can help you with:
        💼 Investment strategies
        🏠 Home buying & mortgage planning
        📊 Tax optimization
        🎯 Retirement planning
        💳 Debt management

        What financial topic would you like to explore today?
        ".

(** [get_welcome_message] *)
Definition get_welcome_message (user_profile : UserProfile) : attribute_result string :=
  let name := Py.str_or (name user_profile) "there" in
  match user_type user_profile with
  | None => AttributeError "value"
  | Some t =>
      if String.eqb (value t) "student" then Returned (student_welcome name)
      else Returned (professional_welcome name)
  end.

(** ** services/huggingface_service.py: insights and goal tracking *)

Definition student_insights : list string := [
  "🍕 Consider meal prepping to reduce food costs by 30-40%";
  "📚 Use library resources and digital textbooks to save on books";
  "🚌 Look into student transit passes for transportation savings";
  "🎮 Take advantage of free campus activities for entertainment";
  "📱 Bundle student discounts for streaming services";
  "☕ Limit coffee shop visits - make coffee at home/dorm"
].

Definition professional_insights : list string := [
  "🏠 Housing should be under 28% of gross income for optimal health";
  "🚗 Consider car-sharing or public transit to reduce costs";
  "📱 Review and cancel unused subscription services monthly";
  "🍽️ Meal planning can save $200-400/month vs eating out";
  "💼 Maximize tax-deductible professional development expenses";
  "⚡ Energy-efficient upgrades can reduce utility costs"
].

Definition general_insights : list string := [
  "💰 Track your spending for one month to identify patterns";
  "🎯 Set up automatic savings transfers on payday";
  "📊 Use the 50/30/20 budgeting rule as a starting point";
  "💳 Pay off high-interest debt before investing"
].

Definition error_insights : list string := [
  "Complete your profile for personalized spending insights!"
].

(** [get_spending_insights] *)
Definition get_spending_insights (user_profile : UserProfile) : list string :=
  let insights :=
    try_except
      (match user_type user_profile with
       | Some STUDENT => Ok student_insights
       | Some PROFESSIONAL => Ok professional_insights
       | None => Ok general_insights
       end)
      (fun _ => error_insights) in
  firstn 6 insights.

(** [max(a, b)] on numbers: [b] when it is greater, else [a]. *)
Definition py_max (a b : Q) : Q :=
  if negb (Qle_bool b a) then b else a.

(** The loop body of the goal tracking of [_generate_student_budget_summary]:
    [months_to_goal] for one goal. *)
Definition months_to_goal (monthly_expenses : Q) (goal : FinancialGoal) : result Q :=
  let monthly_saving_potential := py_max (monthly_expenses * (1 # 10)) 25 in
  py_div (target_amount goal) monthly_saving_potential.

(** The goal tracking loop: the goals that get a line, each with its
    [months_to_goal]. *)
Fixpoint goal_tracking (monthly_expenses : Q) (goals : list FinancialGoal)
  : result (list (FinancialGoal * Q)) :=
  match goals with
  | [] => Ok []
  | goal :: goals' =>
      if negb (Qle_bool monthly_expenses 0) then
        months <- months_to_goal monthly_expenses goal ;;
        rest <- goal_tracking monthly_expenses goals' ;;
        Ok ((goal, months) :: rest)
      else goal_tracking monthly_expenses goals'
  end.

Definition student_goal_tracking (user_profile : UserProfile)
  : result (list (FinancialGoal * Q)) :=
  let monthly_expenses := num_or_zero (monthly_expenses user_profile) in
  goal_tracking monthly_expenses (financial_goals user_profile).

(** ** services/watson_service_backup.py *)

Module Watson.

Definition financial_intents : list (string * list string) := [
  ("savings_advice", ["save"; "saving"; "emergency fund"]);
  ("investment_advice", ["invest"; "portfolio"; "stocks"; "bonds"; "retirement"]);
  ("budgeting_help", ["budget"; "expense"; "spending"; "monthly"; "track"]);
  ("debt_management", ["debt"; "loan"; "credit"; "pay off"; "consolidate"]);
  ("tax_planning", ["tax"; "deduction"; "filing"; "refund"]);
  ("financial_education", ["learn"; "explain"; "what is"; "how does"])
].

(** The loop of [_classify_financial_intent] over a table. *)
Fixpoint classify_in (table : list (string * list string)) (query : string)
  : string * string :=
  match table with
  | [] => ("general_financial_advice", "general")
  | (intent, terms) :: table' =>
      if existsb (fun term => Py.contains term query) terms
      then (intent, Py.split_head "_" intent)
      else classify_in table' query
  end.

(** [_classify_financial_intent] *)
Definition classify_financial_intent (query : string) (keywords : list string)
  : string * string :=
  classify_in financial_intents query.

(** [analyze_financial_query] *)
Definition analyze_financial_query (query : string) (user_profile : UserProfile)
  : FinancialQuery :=
  let query_lower := Py.lower query in
  let '(intent, category) := classify_financial_intent query_lower [query_lower] in
  let sentiment :=
    if Py.contains "good" query_lower || Py.contains "great" query_lower
    then "positive" else "neutral" in
  {| original_query := query; intent := intent; entities := [];
     keywords := firstn 5 (Py.split query_lower); sentiment := sentiment;
     confidence := 7 # 10; category := category |}.

(** [generate_personalized_response] *)
Definition generate_personalized_response (query : FinancialQuery)
  (user_profile : UserProfile) : PersonalizedResponse :=
  let recommendations := [
    "Start small and track your progress.";
    "Consider automating savings.";
    "Review goals every 3-6 months."
  ] in
  let follow_ups := [
    "How much should I save per month?";
    "What investment options are suitable for me?"
  ] in
  {| content := "Here's some advice based on your question: '"
                ++ original_query query ++ "'";
     tone := "friendly";
     complexity_level := "basic";
     recommendations := recommendations;
     additional_resources := ["https://www.investopedia.com"; "https://www.moneycontrol.com"];
     follow_up_questions := follow_ups |}.

End Watson.

(** ** services/profile_service.py

    The files of the data directory are kept as an association list from
    path to content. *)

Module ProfileService.

Definition files : Type := list (string * string).

Inductive io_error : Type :=
| OSError (path : string)
| JSONDecodeError
| NoAttribute (attribute : string).

Inductive io (A : Type) : Type :=
| Done (a : A)
| Failed (e : io_error).

Arguments Done {A} a.
Arguments Failed {A} e.

Fixpoint read_file (fs : files) (path : string) : option string :=
  match fs with
  | [] => None
  | (p, c) :: fs' => if String.eqb p path then Some c else read_file fs' path
  end.

(** [os.path.exists(path)] *)
Definition path_exists (fs : files) (path : string) : bool :=
  match read_file fs path with
  | Some _ => true
  | None => false
  end.

(** Writing [text] over the file at [path], created when absent. *)
Fixpoint write_file (fs : files) (path text : string) : files :=
  match fs with
  | [] => [(path, text)]
  | (p, c) :: fs' =>
      if String.eqb p path then (p, text) :: fs' else (p, c) :: write_file fs' path text
  end.

(** [open(path, 'w')]: the file is created or emptied. *)
Definition truncate (fs : files) (path : string) : files :=
  write_file fs path "".

(** [s.endswith(c)] *)
Fixpoint ends_with (c : ascii) (s : string) : bool :=
  match s with
  | EmptyString => false
  | String c' EmptyString => Ascii.eqb c' c
  | String _ t => ends_with c t
  end.

(** [os.path.join(a, b)] *)
Definition path_join (a b : string) : string :=
  match b with
  | String "/" _ => b
  | _ => if String.eqb a "" || ends_with "/" a then a ++ b else a ++ "/" ++ b
  end.

(** [f"{x}"] for an optional string: [None] is printed as [None]. *)
Definition format_id (user_id : option string) : string :=
  match user_id with
  | Some s => s
  | None => "None"
  end.

(** [os.path.join(self.data_dir, f"profile_{user_id}.json")] *)
Definition profile_path (data_dir : string) (user_id : option string) : string :=
  path_join data_dir ("profile_" ++ format_id user_id ++ ".json").

(** [profile.to_dict()]: the class [UserProfile] defines no [to_dict]. *)
Definition to_dict (profile : UserProfile) : io string :=
  Failed (NoAttribute "to_dict").

(** [UserProfile.from_dict(data)]: the class defines no [from_dict]. *)
Definition from_dict (data : string) : io UserProfile :=
  Failed (NoAttribute "from_dict").

(** [save_profile]: [writable] tells whether [open(path, 'w')] succeeds;
    the result is the returned flag and the files left behind. *)
Definition save_profile (writable : string -> bool) (data_dir : string)
  (fs : files) (profile : UserProfile) : bool * files :=
  let file_path := profile_path data_dir (user_id profile) in
  if writable file_path then
    let fs' := truncate fs file_path in
    match to_dict profile with
    | Done text => (true, write_file fs' file_path text)
    | Failed _ => (false, fs')
    end
  else (false, fs).

(** [load_profile]: [json_load] is [json.load] on the content of a file. *)
Definition load_profile (json_load : string -> io string) (data_dir : string)
  (fs : files) (user_id : option string) : option UserProfile :=
  let file_path := profile_path data_dir user_id in
  match read_file fs file_path with
  | Some text =>
      match json_load text with
      | Done data =>
          match from_dict data with
          | Done profile => Some profile
          | Failed _ => None
          end
      | Failed _ => None
      end
  | None => None
  end.

(** [profile_exists] *)
Definition profile_exists (data_dir : string) (fs : files) (user_id : option string)
  : bool :=
  path_exists fs (profile_path data_dir user_id).

End ProfileService.

(** ** Predicates on tokens *)


(** * Properties *)

(** ** The service as it is constructed *)

(** In lightweight mode no model is loaded, whatever the environment. *)
Lemma new_service_has_no_analyzer :
  forall transformers_available pipeline,
    sentiment_analyzer (new_service transformers_available pipeline) = None.
Proof. intros ta pl. reflexivity. Qed.

Lemma analyze_sentiment_without_analyzer :
  forall self text,
    sentiment_analyzer self = None ->
    analyze_sentiment self text = fallback_sentiment_analysis text.
Proof. intros self text H. unfold analyze_sentiment. rewrite H. reflexivity. Qed.

(** ** Fallback sentiment *)

(** C3. Without a model adapter the sentiment of a text is decided by the
    two lexicon counts alone: more positive hits than negative hits gives
    ("positive", 0.7), more negative hits than positive hits gives
    ("negative", 0.7), and equal counts, 0 and 0 included, give
    ("neutral", 0.6). *)
Theorem fallback_sentiment_by_counts :
  forall self text,
    sentiment_analyzer self = None ->
    (negative_count text < positive_count text ->
       analyze_sentiment self text = {| label := "positive"; score := 7 # 10 |}) /\
    (positive_count text < negative_count text ->
       analyze_sentiment self text = {| label := "negative"; score := 7 # 10 |}) /\
    (positive_count text = negative_count text ->
       analyze_sentiment self text = {| label := "neutral"; score := 6 # 10 |}) /\
    (positive_count "" = 0 /\ negative_count "" = 0).
Proof.
  intros self text Hnone.
  rewrite (analyze_sentiment_without_analyzer _ _ Hnone).
  unfold fallback_sentiment_analysis.
  destruct (Nat.ltb_spec (negative_count text) (positive_count text)) as [Hp | Hp];
    destruct (Nat.ltb_spec (positive_count text) (negative_count text)) as [Hn | Hn];
    repeat split; intros; try reflexivity; lia.
Qed.

Lemma fallback_sentiment_by_counts_witness :
  analyze_sentiment (new_service true (Raise (RuntimeError "offline"))) "I love this great plan"
    = {| label := "positive"; score := 7 # 10 |}
  /\ analyze_sentiment (new_service true (Raise (RuntimeError "offline"))) "worried about debt"
    = {| label := "negative"; score := 7 # 10 |}
  /\ analyze_sentiment (new_service true (Raise (RuntimeError "offline"))) "good debt"
    = {| label := "neutral"; score := 6 # 10 |}.
Proof.
  split; [| split].
  - apply (fallback_sentiment_by_counts
             (new_service true (Raise (RuntimeError "offline")))
             "I love this great plan" eq_refl).
    vm_compute. lia.
  - apply (fallback_sentiment_by_counts
             (new_service true (Raise (RuntimeError "offline")))
             "worried about debt" eq_refl).
    vm_compute. lia.
  - apply (fallback_sentiment_by_counts
             (new_service true (Raise (RuntimeError "offline")))
             "good debt" eq_refl).
    vm_compute. reflexivity.
Defined.

(** ** Analysis of a query *)

(** C5. The empty query is analysed without an exception: the result is
    the general intent and category, a neutral sentiment with the fixed
    confidence 0.6, and neither keywords nor entities. *)
Theorem analyze_empty_query :
  forall transformers_available pipeline user_profile,
    analyze_financial_query (new_service transformers_available pipeline) "" user_profile
    = {| original_query := "";
         intent := "general_financial_advice";
         entities := [];
         keywords := [];
         sentiment := "neutral";
         confidence := 6 # 10;
         category := "general" |}.
Proof. intros ta pl p. reflexivity. Qed.

(** C10. The profile passed to the analysis has no influence on its
    result: two profiles give the same analysis of a text, with or
    without a model adapter. *)
Theorem analysis_ignores_profile :
  forall self query profile1 profile2,
    analyze_financial_query self query profile1
    = analyze_financial_query self query profile2.
Proof. intros self query p1 p2. reflexivity. Qed.

(** ** End to end *)

(** C6. For a student and the query "How should I save money?", which
    scores one hit in the savings lexicon and one in the budgeting lexicon,
    the analysis gives intent "savings_advice" and category "savings", and
    the response has tone "friendly and educational" and at least one
    recommendation. *)
Theorem student_save_money_scenario :
  forall transformers_available pipeline user_profile,
    user_type user_profile = Some STUDENT ->
    let query := analyze_financial_query
                   (new_service transformers_available pipeline)
                   "How should I save money?" user_profile in
    let response := generate_personalized_response query user_profile in
    intent_scores (Py.lower "How should I save money?") financial_intents
      = [("savings_advice", 1); ("budgeting_help", 1)] /\
    intent query = "savings_advice" /\
    category query = "savings" /\
    tone response = "friendly and educational" /\
    recommendations response <> [].
Proof.
  intros ta pl p Hstudent query response.
  repeat split; try reflexivity.
  - unfold response, generate_personalized_response,
      generate_personalized_response_with, dispatch_response.
    rewrite Hstudent. reflexivity.
  - unfold response, generate_personalized_response,
      generate_personalized_response_with, dispatch_response.
    rewrite Hstudent. discriminate.
Qed.

Lemma student_save_money_scenario_witness :
  let user_profile := with_user_type new_profile STUDENT in
  let query := analyze_financial_query
                 (new_service false (Raise (RuntimeError "offline")))
                 "How should I save money?" user_profile in
  intent query = "savings_advice" /\
  category query = "savings" /\
  tone (generate_personalized_response query user_profile) = "friendly and educational" /\
  recommendations (generate_personalized_response query user_profile) <> [].
Proof.
  apply (student_save_money_scenario false (Raise (RuntimeError "offline"))
           (with_user_type new_profile STUDENT)).
  reflexivity.
Defined.

(** ** Budget coverage *)

Lemma num_or_zero_positive :
  forall e : Q, (0 < e)%Q -> num_or_zero (Some e) = e.
Proof.
  intros e He. unfold num_or_zero.
  destruct (Qeq_bool e 0) eqn:E; [| reflexivity].
  apply Qeq_bool_eq in E. rewrite E in He. exfalso. revert He. apply Qlt_irrefl.
Qed.

Lemma guarded_ratio_positive :
  forall a b : Q, (0 < b)%Q -> guarded_ratio a b = Ok (a / b)%Q.
Proof.
  intros a b Hb. unfold guarded_ratio, py_div.
  destruct (Qle_bool b 0) eqn:L.
  - apply Qle_bool_iff in L. exfalso. apply (Qlt_not_le _ _ Hb L).
  - simpl. destruct (Qeq_bool b 0) eqn:E; [| reflexivity].
    apply Qeq_bool_eq in E. rewrite E in Hb. exfalso. revert Hb. apply Qlt_irrefl.
Qed.

Lemma guarded_ratio_not_positive :
  forall a b : Q, (b <= 0)%Q -> guarded_ratio a b = Ok 0%Q.
Proof.
  intros a b Hb. unfold guarded_ratio.
  apply Qle_bool_iff in Hb. rewrite Hb. reflexivity.
Qed.

Lemma guarded_ratio_never_raises :
  forall a b : Q, exists q, guarded_ratio a b = Ok q.
Proof.
  intros a b. destruct (Qlt_le_dec 0 b) as [Hb | Hb].
  - exists (a / b)%Q. apply guarded_ratio_positive, Hb.
  - exists 0%Q. apply guarded_ratio_not_positive, Hb.
Qed.

(** C8. The emergency-fund coverage is current savings divided by monthly
    expenses when the expenses are positive, 1200 over 800 being one and a
    half months; it is 0 when the expenses are zero or absent; and the
    computation never raises, the division being reached with a positive
    divisor only.  The student summary computes the same coverage. *)
Theorem emergency_coverage_guarded :
  forall user_profile,
    (forall e, monthly_expenses user_profile = Some e -> (0 < e)%Q ->
       emergency_months user_profile
       = Ok (num_or_zero (current_savings user_profile) / e)%Q) /\
    (forall e, monthly_expenses user_profile = Some e -> (e == 0)%Q ->
       emergency_months user_profile = Ok 0%Q) /\
    (monthly_expenses user_profile = None ->
       emergency_months user_profile = Ok 0%Q) /\
    (monthly_expenses user_profile = Some (800 # 1)%Q ->
     current_savings user_profile = Some (1200 # 1)%Q ->
       exists months, emergency_months user_profile = Ok months /\ (months == 3 # 2)%Q) /\
    (exists months, emergency_months user_profile = Ok months) /\
    savings_months user_profile = emergency_months user_profile.
Proof.
  intros p. unfold savings_months, emergency_months. repeat split.
  - intros e He Hpos. rewrite He, (num_or_zero_positive e Hpos).
    apply guarded_ratio_positive, Hpos.
  - intros e He Hzero. rewrite He. apply guarded_ratio_not_positive.
    unfold num_or_zero. destruct (Qeq_bool e 0); [apply Qle_refl |].
    rewrite Hzero. apply Qle_refl.
  - intros Hnone. rewrite Hnone. reflexivity.
  - intros He Hs. rewrite He, Hs. exists (1200 # 800)%Q. split; reflexivity.
  - apply guarded_ratio_never_raises.
Qed.

Lemma emergency_coverage_guarded_witness :
  let user_profile := {|
    user_id := None; name := Some "Ada"; user_type := Some PROFESSIONAL;
    age_range := None; income_level := None; financial_goals := [];
    risk_tolerance := None; communication_preference := None;
    location := None; employment_status := None;
    monthly_expenses := Some (800 # 1)%Q;
    current_savings := Some (1200 # 1)%Q; debt_amount := None |} in
  emergency_months user_profile = Ok (num_or_zero (Some (1200 # 1)%Q) / (800 # 1))%Q.
Proof.
  intro user_profile.
  apply (proj1 (emergency_coverage_guarded user_profile) (800 # 1)%Q); reflexivity.
Defined.

(** ** Enumerations and setters *)

Section EnumLookup.

Context {E : Type} (val : E -> string).

Lemma enum_find_some :
  forall ms v m, enum_find val ms v = Some m -> val m = v /\ In m ms.
Proof.
  induction ms as [| m0 ms IH]; intros v m Hfind; simpl in Hfind.
  - discriminate.
  - destruct (String.eqb (val m0) v) eqn:Heq.
    + injection Hfind as <-. apply String.eqb_eq in Heq. split; [exact Heq | now left].
    + destruct (IH _ _ Hfind) as [Hv Hin]. split; [exact Hv | now right].
Qed.

Lemma enum_find_none :
  forall ms v, enum_find val ms v = None -> forall m, In m ms -> val m <> v.
Proof.
  induction ms as [| m0 ms IH]; intros v Hfind m Hin; simpl in *.
  - contradiction.
  - destruct (String.eqb (val m0) v) eqn:Heq; [discriminate |].
    destruct Hin as [<- | Hin].
    + now apply String.eqb_neq.
    + now apply IH.
Qed.

End EnumLookup.

(** The member lists are the whole enumerations. *)
Lemma UserType_members_all : forall m : UserType, In m members.
Proof. intros []; simpl; tauto. Qed.

Lemma AgeRange_members_all : forall m : AgeRange, In m members.
Proof. intros []; simpl; tauto. Qed.

Lemma IncomeLevel_members_all : forall m : IncomeLevel, In m members.
Proof. intros []; simpl; tauto. Qed.

Lemma RiskTolerance_members_all : forall m : RiskTolerance, In m members.
Proof. intros []; simpl; tauto. Qed.

Lemma CommunicationStyle_members_all : forall m : CommunicationStyle, In m members.
Proof. intros []; simpl; tauto. Qed.

(** A setter built as the source builds them: look the normalized string
    up, then assign. *)
Lemma enum_call_assigns_or_rejects :
  forall (E : Type) (HE : PyEnum E) (all : forall m : E, In m members)
         (assign : UserProfile -> E -> UserProfile) (self : UserProfile) (v : string),
    assigns_or_rejects v assign self (m <- enum_call E v ;; Ok (assign self m)).
Proof.
  intros E HE all assign self v. unfold enum_call.
  destruct (enum_find value members v) as [m |] eqn:Hfind; simpl.
  - exists m. split; [| reflexivity]. now apply (enum_find_some value members v m).
  - split; [reflexivity |]. intros m. apply (enum_find_none value members v Hfind), all.
Qed.

(** C9. Called with a raw string, each of the five setters normalizes it
    (lower case for the user type, the risk tolerance and the communication
    preference; '_' turned into '-' for the age range and the income level)
    and looks the result up among the values of its enumeration: it either
    assigns the member found, or raises and assigns nothing when no member
    has that value.  No default member is ever assigned. *)
Theorem setters_assign_or_reject :
  forall (s : string) (self : UserProfile),
    assigns_or_rejects (Py.lower s) with_user_type self
      (set_user_type (Raw s) self) /\
    assigns_or_rejects (Py.lower s) with_risk_tolerance self
      (set_risk_tolerance (Raw s) self) /\
    assigns_or_rejects (Py.lower s) with_communication_preference self
      (set_communication_preference (Raw s) self) /\
    assigns_or_rejects (replace_char "_" "-" s) with_age_range self
      (set_age_range (Raw s) self) /\
    assigns_or_rejects (replace_char "_" "-" s) with_income_level self
      (set_income_level (Raw s) self).
Proof.
  intros s self. repeat split.
  - apply (enum_call_assigns_or_rejects UserType _ UserType_members_all).
  - apply (enum_call_assigns_or_rejects RiskTolerance _ RiskTolerance_members_all).
  - apply (enum_call_assigns_or_rejects CommunicationStyle _ CommunicationStyle_members_all).
  - apply (enum_call_assigns_or_rejects AgeRange _ AgeRange_members_all).
  - apply (enum_call_assigns_or_rejects IncomeLevel _ IncomeLevel_members_all).
Qed.

Example set_user_type_upper_case :
  set_user_type (Raw "STUDENT") new_profile = Ok (with_user_type new_profile STUDENT).
Proof. reflexivity. Qed.

Example set_age_range_underscore :
  set_age_range (Raw "18_25") new_profile = Ok (with_age_range new_profile AGE_18_25).
Proof. reflexivity. Qed.

Example set_user_type_unknown :
  set_user_type (Raw "Teacher") new_profile = Raise (ValueError "teacher").
Proof. reflexivity. Qed.

Example set_age_range_unknown :
  set_age_range (Raw "18 25") new_profile = Raise (ValueError "18 25").
Proof. reflexivity. Qed.

(** ** Keyword extraction *)

Lemma mem_In : forall x xs, Py.mem x xs = true <-> In x xs.
Proof.
  intros x xs. unfold Py.mem. rewrite existsb_exists. split.
  - intros [y [Hin Heq]]. apply String.eqb_eq in Heq. now subst.
  - intros Hin. exists x. split; [exact Hin | apply String.eqb_refl].
Qed.

Lemma firstn_is_prefix :
  forall (A : Type) (n : nat) (l : list A), exists rest, l = (firstn n l ++ rest)%list.
Proof. intros A n l. exists (skipn n l). symmetry. apply firstn_skipn. Qed.

Lemma firstn_Forall :
  forall (A : Type) (P : A -> Prop) (n : nat) (l : list A),
    Forall P l -> Forall P (firstn n l).
Proof.
  intros A P n l H. revert n.
  induction H as [| x l Hx Hl IH]; intros [| n]; simpl; constructor; auto.
Qed.

(** C2, first half as claimed and second half as the code has it.  The
    keywords of a text are the first five tokens of the lower-cased text
    that belong to the financial vocabulary, in the order of the text: at
    most five, all from the vocabulary.  When no token belongs to the
    vocabulary the result is empty; the first three raw tokens are returned
    only from the exception handler, that is when the tokenizer raises. *)
Theorem extract_keywords_first_five :
  forall text,
    let tokens := Py.findall_words (Py.lower text) in
    let matches := filter (fun word => Py.mem word financial_terms) tokens in
    length (extract_keywords text) <= 5 /\
    Forall (fun k => In k financial_terms /\ In k tokens) (extract_keywords text) /\
    (exists rest, matches = (extract_keywords text ++ rest)%list) /\
    (matches = [] -> extract_keywords text = []) /\
    (forall findall e,
       findall (Py.lower text) = Raise e ->
       extract_keywords_with findall text = firstn 3 (Py.split text)).
Proof.
  intros text tokens matches.
  assert (Hrun : extract_keywords text = firstn 5 matches) by reflexivity.
  rewrite Hrun. repeat split.
  - apply firstn_le_length.
  - apply firstn_Forall. apply Forall_forall. intros k Hk.
    apply filter_In in Hk. destruct Hk as [Hin Hmem].
    split; [now apply mem_In | exact Hin].
  - apply firstn_is_prefix.
  - intros Hnone. rewrite Hnone. reflexivity.
  - intros findall e Hraise. unfold extract_keywords_with. rewrite Hraise. reflexivity.
Qed.

Lemma extract_keywords_first_five_witness :
  extract_keywords "hello world" = [] /\
  extract_keywords_with (fun _ => Raise (RuntimeError "re")) "hello world"
    = ["hello"; "world"].
Proof.
  split.
  - apply (extract_keywords_first_five "hello world"). reflexivity.
  - apply (extract_keywords_first_five "hello world")
      with (findall := fun _ : string => @Raise (list string) (RuntimeError "re"))
           (e := RuntimeError "re").
    reflexivity.
Defined.

(** C2 as claimed fails: "hello world" has no financial term, its first
    raw tokens are "hello" and "world", and the extraction returns the
    empty list. *)
Lemma extract_keywords_no_token_fallback :
  filter (fun word => Py.mem word financial_terms)
         (Py.findall_words (Py.lower "hello world")) = [] /\
  firstn 3 (Py.split "hello world") = ["hello"; "world"] /\
  extract_keywords "hello world" = [] /\
  extract_keywords "hello world" <> firstn 3 (Py.split "hello world").
Proof. repeat split; try reflexivity. discriminate. Qed.

(** ** Intent classification *)

(** *** What the classifier of the source computes

    With the keywords matched as they are written, the classifier returns
    the first intent of the table whose score is maximal, when some score
    is positive. *)

Section FirstMaximal.

Context {A : Type} (key : A -> nat).

Lemma max_by_snoc :
  forall first rest x,
    Py.max_by key first (rest ++ [x])
    = if (key (Py.max_by key first rest) <? key x)%nat then x
      else Py.max_by key first rest.
Proof. intros first rest x. unfold Py.max_by. rewrite fold_left_app. reflexivity. Qed.

Lemma max_by_first_maximal :
  forall first rest,
    exists before after,
      first :: rest = (before ++ Py.max_by key first rest :: after)%list /\
      (forall x, In x before -> key x < key (Py.max_by key first rest)) /\
      (forall x, In x after -> key x <= key (Py.max_by key first rest)).
Proof.
  intros first rest. induction rest as [| x rest IH] using rev_ind.
  - exists [], []. simpl. repeat split; intros x [].
  - destruct IH as [before [after [Hsplit [Hbefore Hafter]]]].
    rewrite max_by_snoc.
    destruct (Nat.ltb_spec (key (Py.max_by key first rest)) (key x)) as [Hlt | Hge].
    + exists (first :: rest), []. repeat split.
      * intros y Hy. rewrite Hsplit in Hy. apply in_app_or in Hy.
        destruct Hy as [Hy | [<- | Hy]].
        -- specialize (Hbefore y Hy). lia.
        -- exact Hlt.
        -- specialize (Hafter y Hy). lia.
      * intros y [].
    + exists before, (after ++ [x])%list. repeat split.
      * rewrite app_comm_cons, Hsplit, <- app_assoc. reflexivity.
      * exact Hbefore.
      * intros y Hy. apply in_app_or in Hy. destruct Hy as [Hy | [<- | []]].
        -- now apply Hafter.
        -- exact Hge.
Qed.

Lemma filter_split :
  forall (p : A -> bool) l f1 b f2,
    filter p l = (f1 ++ b :: f2)%list ->
    exists l1 l2,
      l = (l1 ++ b :: l2)%list /\ filter p l1 = f1 /\ filter p l2 = f2.
Proof.
  intros p. induction l as [| x l IH]; intros f1 b f2 H; simpl in H.
  - now destruct f1.
  - destruct (p x) eqn:Hp.
    + destruct f1 as [| y f1]; simpl in H; injection H as Hx Hrest.
      * subst x. exists [], l. repeat split. exact Hrest.
      * subst y. destruct (IH _ _ _ Hrest) as [l1 [l2 [Hl [H1 H2]]]].
        exists (x :: l1), l2. repeat split.
        -- simpl. now rewrite Hl.
        -- simpl. now rewrite Hp, H1.
        -- exact H2.
    + destruct (IH _ _ _ H) as [l1 [l2 [Hl [H1 H2]]]].
      exists (x :: l1), l2. repeat split.
      * simpl. now rewrite Hl.
      * simpl. now rewrite Hp.
      * exact H2.
Qed.

Lemma filter_nil :
  forall (p : A -> bool) l, filter p l = [] -> Forall (fun x => p x = false) l.
Proof.
  intros p. induction l as [| x l IH]; simpl; intros H; [constructor |].
  destruct (p x) eqn:Hp; [discriminate |]. constructor; auto.
Qed.

Lemma filter_rejects_or_keeps :
  forall (p : A -> bool) l x, In x l -> p x = false \/ In x (filter p l).
Proof.
  intros p l x Hin. destruct (p x) eqn:Hp; [right | now left].
  apply filter_In. now split.
Qed.

End FirstMaximal.

(** The scores of the whole table, zero scores included. *)
Lemma intent_scores_as_filter :
  forall query_lower table,
    intent_scores query_lower table
    = filter (fun entry => (0 <? snd entry)%nat)
        (map (fun entry => (fst entry, intent_score query_lower (snd entry))) table).
Proof.
  intros ql. induction table as [| [intent keywords] table IH]; simpl; [reflexivity |].
  rewrite IH. reflexivity.
Qed.

Lemma classify_intent_first_maximal :
  forall query,
    let score_of := fun entry : string * list string =>
                      intent_score (Py.lower query) (snd entry) in
    (Forall (fun entry => score_of entry = 0) financial_intents /\
     classify_intent query = ("general_financial_advice", "general"))
    \/
    (exists before best after,
       financial_intents = (before ++ best :: after)%list /\
       classify_intent query = (fst best, Py.split_head "_" (fst best)) /\
       0 < score_of best /\
       Forall (fun entry => score_of entry < score_of best) before /\
       Forall (fun entry => score_of entry <= score_of best) after).
Proof.
  intros query score_of. unfold classify_intent.
  generalize financial_intents as table. intros table.
  rewrite intent_scores_as_filter.
  set (scored := map (fun entry => (fst entry, intent_score (Py.lower query) (snd entry)))
                     table).
  destruct (filter (fun entry => (0 <? snd entry)%nat) scored) as [| first rest] eqn:Hf.
  - left. split; [| reflexivity].
    apply filter_nil in Hf. rewrite Forall_forall in *. intros entry Hin.
    specialize (Hf (fst entry, score_of entry)). simpl in Hf.
    assert (Hmap : In (fst entry, score_of entry) scored).
    { unfold scored. now apply (in_map (fun e => (fst e, intent_score (Py.lower query) (snd e)))). }
    apply Hf in Hmap. apply Nat.ltb_ge in Hmap. lia.
  - right.
    destruct (max_by_first_maximal snd first rest) as [f1 [f2 [Hsplit [Hf1 Hf2]]]].
    set (b := Py.max_by snd first rest) in *.
    rewrite Hsplit in Hf.
    assert (Hpos : 0 < snd b).
    { assert (Hin : In b (filter (fun entry => (0 <? snd entry)%nat) scored)).
      { rewrite Hf. apply in_or_app. right. now left. }
      apply filter_In in Hin. destruct Hin as [_ Hin]. now apply Nat.ltb_lt. }
    destruct (filter_split _ _ _ _ _ Hf) as [l1 [l2 [Hl [H1 H2]]]].
    unfold scored in Hl. apply map_eq_app in Hl.
    destruct Hl as [before [tail [Htable [Hbefore Htail]]]].
    apply map_eq_cons in Htail. destruct Htail as [best [after [Htail [Hbest Hafter]]]].
    exists before, best, after. subst tail.
    assert (Hscore : score_of best = snd b) by (rewrite <- Hbest; reflexivity).
    assert (Hname : fst best = fst b) by (rewrite <- Hbest; reflexivity).
    rewrite Hscore, Hname. repeat split; try assumption.
    + apply Forall_forall. intros entry Hin.
      assert (Hmap : In (fst entry, score_of entry) l1).
      { rewrite <- Hbefore.
        now apply (in_map (fun e => (fst e, intent_score (Py.lower query) (snd e)))). }
      destruct (filter_rejects_or_keeps (fun e : string * nat => (0 <? snd e)%nat) l1 _ Hmap)
        as [Hzero | Hkept].
      * simpl in Hzero. apply Nat.ltb_ge in Hzero. lia.
      * rewrite H1 in Hkept. apply (Hf1 _ Hkept).
    + apply Forall_forall. intros entry Hin.
      assert (Hmap : In (fst entry, score_of entry) l2).
      { rewrite <- Hafter.
        now apply (in_map (fun e => (fst e, intent_score (Py.lower query) (snd e)))). }
      destruct (filter_rejects_or_keeps (fun e : string * nat => (0 <? snd e)%nat) l2 _ Hmap)
        as [Hzero | Hkept].
      * simpl in Hzero. apply Nat.ltb_ge in Hzero. lia.
      * rewrite H2 in Hkept. apply (Hf2 _ Hkept).
Qed.

(** C1 at the query "IRS".  Counted case-insensitively the query matches
    the keyword 'IRS' of the tax lexicon and no other keyword, so the
    classifier of the specification answers ("tax_planning", "tax"); the
    source compares the keyword as written with the lower-cased query,
    finds no match and answers the general intent. *)
Theorem classify_intent_misses_IRS :
  In ("tax_planning", ["tax"; "deduction"; "IRS"; "filing"; "refund"; "tax return"])
     financial_intents /\
  spec_intent_scores "IRS" financial_intents = [("tax_planning", 1)] /\
  spec_classify_intent "IRS" = ("tax_planning", "tax") /\
  intent_scores (Py.lower "IRS") financial_intents = [] /\
  classify_intent "IRS" = ("general_financial_advice", "general").
Proof. repeat split; try reflexivity. simpl. tauto. Qed.

(** ** Response selection *)

Lemma has_nonspace_lstrip : forall s, has_nonspace (Py.lstrip s) = has_nonspace s.
Proof.
  induction s as [| c t IH]; simpl; [reflexivity |].
  destruct (Py.is_space c) eqn:Hc; simpl.
  - exact IH.
  - rewrite Hc. reflexivity.
Qed.

Lemma rstrip_empty : forall s, Py.rstrip s = "" -> has_nonspace s = false.
Proof.
  induction s as [| c t IH]; simpl; [reflexivity |].
  destruct (Py.rstrip t) eqn:Ht; [| discriminate].
  destruct (Py.is_space c); [| discriminate].
  intros _. simpl. now apply IH.
Qed.

Lemma strip_nonempty : forall s, has_nonspace s = true -> Py.strip s <> "".
Proof.
  intros s Hs Hempty. unfold Py.strip in Hempty.
  apply rstrip_empty in Hempty. rewrite has_nonspace_lstrip in Hempty. congruence.
Qed.

Lemma has_nonspace_app_l :
  forall a b, has_nonspace a = true -> has_nonspace (a ++ b) = true.
Proof.
  induction a as [| c t IH]; simpl; intros b H; [discriminate |].
  destruct (negb (Py.is_space c)); simpl in *; [reflexivity | now apply IH].
Qed.

Lemma student_contents_have_text :
  forall user_profile response_data,
    In response_data (map snd (student_base_responses user_profile)) ->
    has_nonspace (data_content response_data) = true.
Proof.
  intros p d Hin. simpl in Hin.
  destruct Hin as [<- | [<- | [<- | []]]]; simpl data_content.
  - unfold student_savings_content. apply has_nonspace_app_l. vm_compute. reflexivity.
  - vm_compute. reflexivity.
  - vm_compute. reflexivity.
Qed.

Lemma professional_contents_have_text :
  forall user_profile response_data,
    In response_data (map snd (professional_base_responses user_profile)) ->
    has_nonspace (data_content response_data) = true.
Proof.
  intros p d Hin. simpl in Hin.
  destruct Hin as [<- | [<- | []]]; simpl data_content.
  - unfold professional_investment_content. apply has_nonspace_app_l. vm_compute. reflexivity.
  - vm_compute. reflexivity.
Qed.

(** [d.get(k, default)] returns a value of the dict or the default. *)
Lemma dict_get_cases :
  forall (V : Type) (d : list (string * V)) k default,
    In (Py.dict_get d k default) (map snd d) \/ Py.dict_get d k default = default.
Proof.
  induction d as [| [k' v] d IH]; intros k default; simpl.
  - now right.
  - destruct (String.eqb k' k).
    + left. now left.
    + destruct (IH k default) as [Hin | Heq]; [left; now right | now right].
Qed.

(** The selected bucket is one of the buckets of the bank. *)
Lemma dict_get_twice_in :
  forall (V : Type) (d : list (string * V)) k k0 v0,
    In v0 (map snd d) ->
    In (Py.dict_get d k (Py.dict_get d k0 v0)) (map snd d).
Proof.
  intros V d k k0 v0 Hv0.
  destruct (dict_get_cases V d k (Py.dict_get d k0 v0)) as [Hin | Heq]; [exact Hin |].
  rewrite Heq.
  destruct (dict_get_cases V d k0 v0) as [Hin | Heq0]; [exact Hin |].
  rewrite Heq0. exact Hv0.
Qed.

Lemma dict_item_in :
  forall (V : Type) (d : list (string * V)) k v,
    Py.dict_item d k = Ok v -> In v (map snd d).
Proof.
  induction d as [| [k' v'] d IH]; intros k v; simpl.
  - discriminate.
  - destruct (String.eqb k' k).
    + intros [= <-]. now left.
    + intros H. right. now apply (IH k).
Qed.

Lemma student_savings_present :
  forall user_profile,
    exists v, Py.dict_item (student_base_responses user_profile) "savings" = Ok v.
Proof. intros p. eexists. reflexivity. Qed.

Lemma professional_investment_present :
  forall user_profile,
    exists v, Py.dict_item (professional_base_responses user_profile) "investment" = Ok v.
Proof. intros p. eexists. reflexivity. Qed.

Lemma generate_student_response_returns :
  forall query user_profile,
    exists response,
      generate_student_response query user_profile = Ok response /\
      content response <> "".
Proof.
  intros q p. unfold generate_student_response.
  destruct (student_savings_present p) as [v Hv]. rewrite Hv.
  cbv beta iota delta [bind].
  eexists. split; [reflexivity |]. cbn [content].
  apply strip_nonempty, (student_contents_have_text p).
  apply dict_get_twice_in. exact (dict_item_in _ _ _ _ Hv).
Qed.

Lemma generate_professional_response_returns :
  forall query user_profile,
    exists response,
      generate_professional_response query user_profile = Ok response /\
      content response <> "".
Proof.
  intros q p. unfold generate_professional_response.
  destruct (professional_investment_present p) as [v Hv]. rewrite Hv.
  cbv beta iota delta [bind].
  eexists. split; [reflexivity |]. cbn [content].
  apply strip_nonempty, (professional_contents_have_text p).
  apply dict_get_twice_in. exact (dict_item_in _ _ _ _ Hv).
Qed.

(** The generators of the service return a response with some text in it
    for every query and profile: the fallback is never needed. *)
Lemma service_dispatch_returns :
  forall query user_profile,
    exists response,
      dispatch_response service_generators query user_profile = Ok response /\
      content response <> "".
Proof.
  intros q p. unfold dispatch_response.
  destruct (user_type p) as [[|] |]; cbn [service_generators student_response
    professional_response general_response].
  - apply generate_student_response_returns.
  - apply generate_professional_response_returns.
  - eexists. split; [reflexivity |]. discriminate.
Qed.

(** C4. For every query, whatever its intent and category, and every
    profile, the empty one included, [generate_personalized_response]
    returns a response whose content is not empty.  A profile that is
    neither a student's nor a professional's gets the general response,
    whose one recommendation is to complete the profile.  Whenever a
    generator raises, the response is the fixed fallback, whose content asks
    to rephrase the question. *)
Theorem generate_personalized_response_never_raises :
  forall query user_profile,
    content (generate_personalized_response query user_profile) <> "" /\
    (user_type user_profile = None ->
       Ok (generate_personalized_response query user_profile)
         = generate_general_response query user_profile /\
       recommendations (generate_personalized_response query user_profile)
         = ["Complete your user profile for personalized advice"]) /\
    (forall g e,
       dispatch_response g query user_profile = Raise e ->
       generate_personalized_response_with g query user_profile
         = generate_fallback_response query) /\
    Py.contains "rephrase" (content (generate_fallback_response query)) = true.
Proof.
  intros q p. split; [| split; [| split]].
  - destruct (service_dispatch_returns q p) as [r [Hr Hcontent]].
    unfold generate_personalized_response, generate_personalized_response_with.
    rewrite Hr. exact Hcontent.
  - intros Hnone.
    unfold generate_personalized_response, generate_personalized_response_with,
      dispatch_response.
    rewrite Hnone. split; reflexivity.
  - intros g e Hraise. unfold generate_personalized_response_with.
    rewrite Hraise. reflexivity.
  - reflexivity.
Qed.

Lemma generate_personalized_response_never_raises_witness :
  let garbage := {| original_query := "?"; intent := "%%"; entities := [];
                    keywords := []; sentiment := "";
                    confidence := 0; category := "no such category" |} in
  let broken := {| student_response := fun _ _ => Raise (KeyError "savings");
                   professional_response := fun _ _ => Raise (KeyError "investment");
                   general_response := fun _ _ => Raise (RuntimeError "broken") |} in
  recommendations (generate_personalized_response garbage new_profile)
    = ["Complete your user profile for personalized advice"] /\
  generate_personalized_response_with broken garbage new_profile
    = generate_fallback_response garbage.
Proof.
  intros garbage broken. split.
  - apply (generate_personalized_response_never_raises garbage new_profile).
    reflexivity.
  - apply (generate_personalized_response_never_raises garbage new_profile)
      with (e := RuntimeError "broken").
    reflexivity.
Defined.

(** ** Swapping positive words for negative words *)

Lemma lower_app : forall a b, Py.lower (a ++ b) = Py.lower a ++ Py.lower b.
Proof. induction a as [| c t IH]; intros b; simpl; [reflexivity | now rewrite IH]. Qed.

Lemma prefix_app : forall w b, String.prefix w (w ++ b) = true.
Proof.
  induction w as [| c t IH]; intros b; simpl.
  - now destruct b.
  - destruct (ascii_dec c c) as [_ | Hne]; [apply IH | now elim Hne].
Qed.

Lemma contains_prefix : forall w s, String.prefix w s = true -> Py.contains w s = true.
Proof. intros w [| c t] H; cbn [Py.contains]; rewrite H; reflexivity. Qed.

Lemma contains_app_r :
  forall w a b, Py.contains w b = true -> Py.contains w (a ++ b) = true.
Proof.
  induction a as [| c t IH]; intros b H; simpl; [exact H |].
  rewrite (IH b H). apply orb_true_r.
Qed.

Lemma count_if_cons :
  forall (A : Type) (p : A -> bool) x xs,
    Py.count_if p (x :: xs) = (if p x then 1 else 0) + Py.count_if p xs.
Proof. intros A p x xs. unfold Py.count_if. simpl. now destruct (p x). Qed.

Lemma count_if_positive :
  forall (A : Type) (p : A -> bool) x xs,
    In x xs -> p x = true -> 0 < Py.count_if p xs.
Proof.
  induction xs as [| y ys IH]; intros Hin Hp; [contradiction |].
  rewrite count_if_cons. destruct Hin as [-> | Hin].
  - rewrite Hp. lia.
  - specialize (IH Hin Hp). lia.
Qed.

Lemma count_if_zero :
  forall (A : Type) (p : A -> bool) xs,
    (forall x, In x xs -> p x = false) -> Py.count_if p xs = 0.
Proof.
  induction xs as [| y ys IH]; intros H; [reflexivity |].
  rewrite count_if_cons, (H y (or_introl eq_refl)), IH; [reflexivity |].
  intros x Hx. apply H. now right.
Qed.

(** The words of both lexicons are written in lower case. *)
Lemma sentiment_words_lower :
  forall w, In w positive_words \/ In w negative_words -> Py.lower w = w.
Proof.
  intros w [H | H]; simpl in H;
    repeat (destruct H as [<- | H]; [reflexivity |]); contradiction.
Qed.

Lemma slot_in_lexicon :
  forall ps pos neg,
    slots_in_lexicon ps = true -> In (Slot pos neg) ps ->
    In pos positive_words /\ In neg negative_words.
Proof.
  induction ps as [| [s | p n] ps IH]; intros pos neg Hlex Hin; simpl in Hlex.
  - contradiction.
  - destruct Hin as [Heq | Hin]; [discriminate | now apply IH].
  - apply andb_prop in Hlex. destruct Hlex as [Hpn Hrest].
    apply andb_prop in Hpn. destruct Hpn as [Hp Hn].
    destruct Hin as [Heq | Hin].
    + injection Heq as <- <-. split; now apply mem_In.
    + now apply IH.
Qed.

Lemma slot_words_nonempty :
  forall ps, slot_words ps <> [] -> exists pos neg, In (Slot pos neg) ps.
Proof.
  induction ps as [| [s | p n] ps IH]; intros H; simpl in H.
  - now elim H.
  - destruct (IH H) as [pos [neg Hin]]. exists pos, neg. now right.
  - exists p, n. now left.
Qed.

(** A slot's words are found in the two renderings of the text. *)
Lemma slot_rendered :
  forall ps pos neg,
    In (Slot pos neg) ps ->
    Py.contains (Py.lower pos) (Py.lower (render_positive ps)) = true /\
    Py.contains (Py.lower neg) (Py.lower (render_negative ps)) = true.
Proof.
  induction ps as [| [s | p n] ps IH]; intros pos neg Hin; simpl.
  - contradiction.
  - destruct Hin as [Heq | Hin]; [discriminate |].
    destruct (IH _ _ Hin) as [Hp Hn]. rewrite !lower_app.
    split; now apply contains_app_r.
  - rewrite !lower_app. destruct Hin as [Heq | Hin].
    + injection Heq as <- <-. split; apply contains_prefix, prefix_app.
    + destruct (IH _ _ Hin) as [Hp Hn]. split; now apply contains_app_r.
Qed.

(** C7 with the condition it needs.  Take a text whose lexicon hits are
    exactly the positive words in its slots, at least one, and replace each
    of them by a negative-lexicon word.  The text is positive with
    confidence 0.7, and the rewritten text is negative with confidence 0.7
    provided no positive-lexicon word is found in it. *)
Theorem sentiment_swap_flips :
  forall ps,
    slots_in_lexicon ps = true ->
    slot_words ps <> [] ->
    hits_are_slot_words ps ->
    positive_count (render_negative ps) = 0 ->
    fallback_sentiment_analysis (render_positive ps)
      = {| label := "positive"; score := 7 # 10 |} /\
    fallback_sentiment_analysis (render_negative ps)
      = {| label := "negative"; score := 7 # 10 |}.
Proof.
  intros ps Hlex Hslots [_ Hneg] Hclean.
  destruct (slot_words_nonempty ps Hslots) as [pos [neg Hin]].
  destruct (slot_in_lexicon ps pos neg Hlex Hin) as [Hpos_lex Hneg_lex].
  destruct (slot_rendered ps pos neg Hin) as [Hpos_found Hneg_found].
  rewrite (sentiment_words_lower pos (or_introl Hpos_lex)) in Hpos_found.
  rewrite (sentiment_words_lower neg (or_intror Hneg_lex)) in Hneg_found.
  assert (Hpc : 0 < positive_count (render_positive ps)).
  { unfold positive_count. now apply count_if_positive with (x := pos). }
  assert (Hnc : negative_count (render_positive ps) = 0).
  { unfold negative_count. now apply count_if_zero. }
  assert (Hnc' : 0 < negative_count (render_negative ps)).
  { unfold negative_count. now apply count_if_positive with (x := neg). }
  unfold fallback_sentiment_analysis. rewrite Hnc, Hclean. split.
  - destruct (Nat.ltb_spec 0 (positive_count (render_positive ps))); [reflexivity | lia].
  - destruct (Nat.ltb_spec (negative_count (render_negative ps)) 0); [lia |].
    destruct (Nat.ltb_spec 0 (negative_count (render_negative ps))); [reflexivity | lia].
Qed.

(** Decides [hits_are_slot_words] of a text that has a single slot. *)
Ltac check_hit :=
  first [ reflexivity
        | let Hhit := fresh "Hhit" in
          split; intro Hhit;
          first [ discriminate Hhit
                | left; reflexivity
                | reflexivity
                | destruct Hhit as [Hhit | []]; discriminate Hhit ] ].

Ltac check_hits :=
  let w := fresh "w" in
  let Hw := fresh "Hw" in
  split; intros w Hw; simpl in Hw;
  repeat (destruct Hw as [<- | Hw]; [check_hit |]);
  contradiction.

Lemma sentiment_swap_flips_witness :
  fallback_sentiment_analysis "I feel good about my plan"
    = {| label := "positive"; score := 7 # 10 |} /\
  fallback_sentiment_analysis "I feel bad about my plan"
    = {| label := "negative"; score := 7 # 10 |}.
Proof.
  apply (sentiment_swap_flips [Lit "I feel "; Slot "good" "bad"; Lit " about my plan"]).
  - reflexivity.
  - discriminate.
  - check_hits.
  - reflexivity.
Defined.

(** C7 as claimed fails.  The only lexicon hit of "excitegood" is the
    positive word "good"; with "good" replaced by the negative word "debt"
    the text reads "excitedebt", in which both "excited" and "debt" are
    found, and the sentiment is ("neutral", 0.6), not ("negative", 0.7). *)
Lemma sentiment_swap_counterexample :
  let ps := [Lit "excite"; Slot "good" "debt"] in
  slots_in_lexicon ps = true /\
  slot_words ps = ["good"] /\
  hits_are_slot_words ps /\
  render_positive ps = "excitegood" /\
  render_negative ps = "excitedebt" /\
  fallback_sentiment_analysis (render_positive ps)
    = {| label := "positive"; score := 7 # 10 |} /\
  fallback_sentiment_analysis (render_negative ps)
    = {| label := "neutral"; score := 6 # 10 |} /\
  fallback_sentiment_analysis (render_negative ps)
    <> {| label := "negative"; score := 7 # 10 |}.
Proof.
  intro ps.
  split; [reflexivity |]. split; [reflexivity |]. split; [check_hits |].
  repeat split; try reflexivity. discriminate.
Qed.

(** * Properties of the rest of the code *)

(** ** Setters, goals and completion *)

Lemma with_user_type_inj :
  forall p m m', with_user_type p m = with_user_type p m' -> m = m'.
Proof. intros p m m' H. apply (f_equal user_type) in H. now injection H. Qed.

Lemma with_age_range_inj :
  forall p m m', with_age_range p m = with_age_range p m' -> m = m'.
Proof. intros p m m' H. apply (f_equal age_range) in H. now injection H. Qed.

Lemma with_income_level_inj :
  forall p m m', with_income_level p m = with_income_level p m' -> m = m'.
Proof. intros p m m' H. apply (f_equal income_level) in H. now injection H. Qed.

Lemma with_risk_tolerance_inj :
  forall p m m', with_risk_tolerance p m = with_risk_tolerance p m' -> m = m'.
Proof. intros p m m' H. apply (f_equal risk_tolerance) in H. now injection H. Qed.

Lemma with_communication_preference_inj :
  forall p m m',
    with_communication_preference p m = with_communication_preference p m' -> m = m'.
Proof. intros p m m' H. apply (f_equal communication_preference) in H. now injection H. Qed.

(** A lookup that finds a member finds the one whose value was given. *)
Lemma enum_call_exact :
  forall (E : Type) (HE : PyEnum E) (assign : UserProfile -> E -> UserProfile)
         (self : UserProfile) (v : string) (m : E),
    (forall m1 m2 : E, assign self m1 = assign self m2 -> m1 = m2) ->
    enum_call E (value m) = Ok m ->
    ((m' <- enum_call E v ;; Ok (assign self m')) = Ok (assign self m) <-> v = value m).
Proof.
  intros E HE assign self v m Hinj Hself. split.
  - unfold enum_call. destruct (enum_find value members v) as [m' |] eqn:Hfind; simpl.
    + intros [= Heq]. apply Hinj in Heq. subst m'.
      symmetry. now apply (enum_find_some value members v m).
    + discriminate.
  - intros ->. rewrite Hself. reflexivity.
Qed.

(** X1. A setter called with a raw string assigns the member [m] exactly
    when the normalized string is the value of [m]; in particular the value
    of a member is accepted and gives what the member itself gives. *)
Theorem setters_assign_exactly :
  forall (s : string) (self : UserProfile),
    (forall m, set_user_type (Raw s) self = Ok (with_user_type self m)
               <-> Py.lower s = value m) /\
    (forall m, set_risk_tolerance (Raw s) self = Ok (with_risk_tolerance self m)
               <-> Py.lower s = value m) /\
    (forall m, set_communication_preference (Raw s) self
               = Ok (with_communication_preference self m)
               <-> Py.lower s = value m) /\
    (forall m, set_age_range (Raw s) self = Ok (with_age_range self m)
               <-> replace_char "_" "-" s = value m) /\
    (forall m, set_income_level (Raw s) self = Ok (with_income_level self m)
               <-> replace_char "_" "-" s = value m) /\
    (forall m, set_user_type (Raw (value m)) self = set_user_type (Member m) self) /\
    (forall m, set_risk_tolerance (Raw (value m)) self = set_risk_tolerance (Member m) self) /\
    (forall m, set_communication_preference (Raw (value m)) self
               = set_communication_preference (Member m) self) /\
    (forall m, set_age_range (Raw (value m)) self = set_age_range (Member m) self) /\
    (forall m, set_income_level (Raw (value m)) self = set_income_level (Member m) self).
Proof.
  intros s self.
  split; [| split; [| split; [| split; [| split]]]].
  - intros m. apply enum_call_exact; [apply with_user_type_inj | now destruct m].
  - intros m. apply enum_call_exact; [apply with_risk_tolerance_inj | now destruct m].
  - intros m. apply enum_call_exact;
      [apply with_communication_preference_inj | now destruct m].
  - intros m. apply enum_call_exact; [apply with_age_range_inj | now destruct m].
  - intros m. apply enum_call_exact; [apply with_income_level_inj | now destruct m].
  - repeat split; intros []; reflexivity.
Qed.

Lemma goal_eta :
  forall g : FinancialGoal,
    {| goal_type := goal_type g; target_amount := target_amount g;
       timeline := timeline g; priority := priority g |} = g.
Proof. now intros []. Qed.

(** X2. Goals are appended: after adding the goals of a list one by one,
    the profile holds its earlier goals followed by the new ones in the
    order they were added, and nothing else of the profile has changed. *)
Theorem add_goals_appends :
  forall goals self,
    add_goals goals self
    = with_financial_goals self (financial_goals self ++ goals)%list.
Proof.
  unfold add_goals. induction goals as [| g goals IH]; intros self; simpl.
  - rewrite app_nil_r. now destruct self.
  - rewrite IH. unfold add_financial_goal. rewrite goal_eta. simpl.
    rewrite <- app_assoc. reflexivity.
Qed.

Lemma is_profile_complete_fields :
  forall self,
    is_profile_complete self = true <->
      (exists c rest, name self = Some (String c rest)) /\
      user_type self <> None /\ age_range self <> None /\
      income_level self <> None /\ risk_tolerance self <> None /\
      communication_preference self <> None.
Proof.
  intros self. unfold is_profile_complete, profile_completion_percentage, filled,
    required_fields_filled.
  destruct (name self) as [[| c rest] |];
    destruct (user_type self), (age_range self), (income_level self),
      (risk_tolerance self), (communication_preference self);
    (split; [intros H; try discriminate H; repeat split; try discriminate; eauto
            | intros [[c' [rest' Hn]] [H1 [H2 [H3 [H4 H5]]]]];
              first [reflexivity | discriminate Hn | now elim H1 | now elim H2
                    | now elim H3 | now elim H4 | now elim H5]]).
Qed.

(** X3. A profile is complete exactly when its name is a non-empty string
    and each of the five enumeration fields is set; the completion
    percentage lies between 0 and 100, and a fresh profile is at 0. *)
Theorem profile_complete_iff_all_filled :
  forall self,
    (is_profile_complete self = true <->
       (exists c rest, name self = Some (String c rest)) /\
       user_type self <> None /\ age_range self <> None /\
       income_level self <> None /\ risk_tolerance self <> None /\
       communication_preference self <> None) /\
    (0 <= profile_completion_percentage self)%Q /\
    (profile_completion_percentage self <= 100)%Q /\
    (profile_completion_percentage new_profile == 0)%Q.
Proof.
  intros self. split; [apply is_profile_complete_fields |].
  unfold profile_completion_percentage, filled, required_fields_filled.
  destruct (name self) as [[| c rest] |];
    destruct (user_type self), (age_range self), (income_level self),
      (risk_tolerance self), (communication_preference self);
    repeat split; vm_compute; intros Hcmp; discriminate Hcmp.
Qed.

Lemma set_user_type_assigns :
  forall v p p', set_user_type v p = Ok p' -> exists m, p' = with_user_type p m.
Proof.
  intros [m | s] p p'; simpl.
  - intros [= <-]. now exists m.
  - destruct (enum_call UserType (Py.lower s)) as [m | e]; simpl; [| discriminate].
    intros [= <-]. now exists m.
Qed.

Lemma set_age_range_assigns :
  forall v p p', set_age_range v p = Ok p' -> exists m, p' = with_age_range p m.
Proof.
  intros [m | s] p p'; simpl.
  - intros [= <-]. now exists m.
  - destruct (enum_call AgeRange (replace_char "_" "-" s)) as [m | e]; simpl;
      [| discriminate].
    intros [= <-]. now exists m.
Qed.

Lemma set_income_level_assigns :
  forall v p p', set_income_level v p = Ok p' -> exists m, p' = with_income_level p m.
Proof.
  intros [m | s] p p'; simpl.
  - intros [= <-]. now exists m.
  - destruct (enum_call IncomeLevel (replace_char "_" "-" s)) as [m | e]; simpl;
      [| discriminate].
    intros [= <-]. now exists m.
Qed.

Lemma set_risk_tolerance_assigns :
  forall v p p', set_risk_tolerance v p = Ok p' -> exists m, p' = with_risk_tolerance p m.
Proof.
  intros [m | s] p p'; simpl.
  - intros [= <-]. now exists m.
  - destruct (enum_call RiskTolerance (Py.lower s)) as [m | e]; simpl; [| discriminate].
    intros [= <-]. now exists m.
Qed.

Lemma set_communication_preference_assigns :
  forall v p p',
    set_communication_preference v p = Ok p' ->
    exists m, p' = with_communication_preference p m.
Proof.
  intros [m | s] p p'; simpl.
  - intros [= <-]. now exists m.
  - destruct (enum_call CommunicationStyle (Py.lower s)) as [m | e]; simpl;
      [| discriminate].
    intros [= <-]. now exists m.
Qed.

(** X4. The profile form: a profile with a non-empty name on which the
    five setters have succeeded one after the other, whatever they were
    called with, is complete, and its name and goals are untouched. *)
Theorem five_setters_complete_profile :
  forall self v1 v2 v3 v4 v5 p1 p2 p3 p4 p5,
    truthy_str (name self) = true ->
    set_user_type v1 self = Ok p1 ->
    set_age_range v2 p1 = Ok p2 ->
    set_income_level v3 p2 = Ok p3 ->
    set_risk_tolerance v4 p3 = Ok p4 ->
    set_communication_preference v5 p4 = Ok p5 ->
    is_profile_complete p5 = true /\
    name p5 = name self /\
    financial_goals p5 = financial_goals self.
Proof.
  intros self v1 v2 v3 v4 v5 p1 p2 p3 p4 p5 Hname H1 H2 H3 H4 H5.
  apply set_user_type_assigns in H1. destruct H1 as [m1 ->].
  apply set_age_range_assigns in H2. destruct H2 as [m2 ->].
  apply set_income_level_assigns in H3. destruct H3 as [m3 ->].
  apply set_risk_tolerance_assigns in H4. destruct H4 as [m4 ->].
  apply set_communication_preference_assigns in H5. destruct H5 as [m5 ->].
  split; [| split; reflexivity].
  apply is_profile_complete_fields. simpl.
  destruct (name self) as [[| c rest] |]; try discriminate Hname.
  repeat split; try discriminate. now exists c, rest.
Qed.

Lemma five_setters_complete_profile_witness :
  let ada := {| user_id := None; name := Some "Ada"; user_type := None;
                age_range := None; income_level := None; financial_goals := [];
                risk_tolerance := None; communication_preference := None;
                location := None; employment_status := None;
                monthly_expenses := None; current_savings := None;
                debt_amount := None |} in
  is_profile_complete
    (with_communication_preference
       (with_risk_tolerance
          (with_income_level
             (with_age_range (with_user_type ada STUDENT) AGE_18_25)
             LEVEL_0_15000) MODERATE) DETAILED) = true.
Proof.
  intro ada.
  apply (five_setters_complete_profile ada
           (Raw "STUDENT") (Raw "18_25") (Member LEVEL_0_15000)
           (Raw "moderate") (Raw "Detailed")
           _ _ _ _ _ eq_refl eq_refl eq_refl eq_refl eq_refl eq_refl).
Defined.

(** ** The welcome message *)

(** X5. Behind the completeness gate of the chat page the welcome message
    never fails: a complete profile has a user type and a non-empty name,
    and is greeted by that name with the text of its user type.  Without
    the gate the message fails exactly on a profile that has no user
    type. *)
Theorem welcome_message_behind_gate :
  forall user_profile,
    (is_profile_complete user_profile = true ->
       exists c rest t,
         name user_profile = Some (String c rest) /\
         user_type user_profile = Some t /\
         get_welcome_message user_profile
         = Returned (match t with
                     | STUDENT => student_welcome (String c rest)
                     | PROFESSIONAL => professional_welcome (String c rest)
                     end)) /\
    (get_welcome_message user_profile = AttributeError "value"
       <-> user_type user_profile = None).
Proof.
  intros p. split.
  - intros Hcomplete. apply is_profile_complete_fields in Hcomplete.
    destruct Hcomplete as [[c [rest Hname]] [Htype _]].
    destruct (user_type p) as [t |] eqn:Ht; [| now elim Htype].
    exists c, rest, t. repeat split; [exact Hname |].
    unfold get_welcome_message. rewrite Ht, Hname. now destruct t.
  - unfold get_welcome_message. destruct (user_type p) as [[|] |]; simpl;
      split; intros H; try discriminate H; reflexivity.
Qed.

Lemma welcome_message_behind_gate_witness :
  exists c rest t,
    Some "Ada" = Some (String c rest) /\
    Some PROFESSIONAL = Some t /\
    get_welcome_message {|
      user_id := None; name := Some "Ada"; user_type := Some PROFESSIONAL;
      age_range := Some AGE_26_35; income_level := Some LEVEL_30001_60000;
      financial_goals := []; risk_tolerance := Some MODERATE;
      communication_preference := Some SIMPLE; location := None;
      employment_status := None; monthly_expenses := None;
      current_savings := None; debt_amount := None |}
    = Returned (match t with
                | STUDENT => student_welcome (String c rest)
                | PROFESSIONAL => professional_welcome (String c rest)
                end).
Proof.
  apply (proj1 (welcome_message_behind_gate {|
      user_id := None; name := Some "Ada"; user_type := Some PROFESSIONAL;
      age_range := Some AGE_26_35; income_level := Some LEVEL_30001_60000;
      financial_goals := []; risk_tolerance := Some MODERATE;
      communication_preference := Some SIMPLE; location := None;
      employment_status := None; monthly_expenses := None;
      current_savings := None; debt_amount := None |})).
  reflexivity.
Defined.

(** ** Entities *)

Lemma flat_map_length_le :
  forall (A B : Type) (f : A -> list B) (g : A -> nat) (l : list A),
    (forall x, length (f x) <= g x) ->
    length (flat_map f l) <= list_sum (map g l).
Proof.
  intros A B f g l Hf. induction l as [| x l IH]; simpl; [lia |].
  rewrite length_app. specialize (Hf x). lia.
Qed.

Lemma extract_entities_length :
  forall text, length (extract_entities text) <= 18.
Proof.
  intros text. unfold extract_entities.
  change 18 with (list_sum (map (fun entry : string * list string => length (snd entry))
                                entity_patterns)).
  apply flat_map_length_le. intros [entity_type patterns]. simpl.
  replace (length patterns) with (list_sum (map (fun _ : string => 1) patterns)).
  - apply flat_map_length_le. intros pattern.
    destruct (Py.contains pattern (Py.lower text)); simpl; lia.
  - induction patterns as [| x xs IH]; simpl; [reflexivity | now rewrite IH].
Qed.

(** X6. The entities of a text are exactly the pattern phrases found in
    the lower-cased text, each recorded under its entity type with
    confidence 0.8; a phrase found under two patterns is recorded twice
    ("monthly" is recorded as "month" and as "monthly"), and there are at
    most 18 entities, one for each pattern of the table. *)
Theorem extract_entities_exact :
  forall text,
    (forall e,
       In e (extract_entities text) <->
       exists entity_type patterns,
         In (entity_type, patterns) entity_patterns /\
         In (entity_value e) patterns /\
         Py.contains (entity_value e) (Py.lower text) = true /\
         entity e = entity_type /\
         entity_confidence e = (8 # 10)%Q) /\
    length (extract_entities text) <= 18 /\
    map entity_value (extract_entities "monthly") = ["month"; "monthly"].
Proof.
  intros text. split; [| split; [| reflexivity]].
  - intros e. unfold extract_entities. rewrite in_flat_map. split.
    + intros [[entity_type patterns] [Htable Hin]].
      apply in_flat_map in Hin. destruct Hin as [pattern [Hpattern Hin]].
      destruct (Py.contains pattern (Py.lower text)) eqn:Hfound; [| contradiction].
      destruct Hin as [<- | []]. exists entity_type, patterns. simpl. auto.
    + intros [entity_type [patterns [Htable [Hpattern [Hfound [Htype Hconf]]]]]].
      exists (entity_type, patterns). split; [exact Htable |].
      apply in_flat_map. exists (entity_value e). split; [exact Hpattern |].
      rewrite Hfound. left. destruct e as [t v c]. simpl in *. now subst.
  - apply extract_entities_length.
Qed.

(** ** The model adapter *)

(** X7. An adapter that raises on a query is as good as no adapter: the
    analysis is the one of the service without analyzer. *)
Theorem failing_analyzer_is_absent :
  forall (analyzer : Analyzer) e query user_profile,
    analyzer query = Raise e ->
    analyze_financial_query {| sentiment_analyzer := Some analyzer |} query user_profile
    = analyze_financial_query {| sentiment_analyzer := None |} query user_profile.
Proof.
  intros analyzer e query p Hraise.
  unfold analyze_financial_query, analyze_sentiment. cbn [sentiment_analyzer].
  rewrite Hraise. reflexivity.
Qed.

Lemma failing_analyzer_is_absent_witness :
  analyze_financial_query
    {| sentiment_analyzer := Some (fun _ => Raise (RuntimeError "timeout")) |}
    "I am worried about my debt" new_profile
  = analyze_financial_query {| sentiment_analyzer := None |}
      "I am worried about my debt" new_profile.
Proof.
  apply (failing_analyzer_is_absent (fun _ => Raise (RuntimeError "timeout"))
           (RuntimeError "timeout")).
  reflexivity.
Defined.

Lemma lower_char_idempotent :
  forall c, Py.lower_char (Py.lower_char c) = Py.lower_char c.
Proof. intros [[] [] [] [] [] [] [] []]; reflexivity. Qed.

Lemma lower_idempotent : forall s, Py.lower (Py.lower s) = Py.lower s.
Proof.
  induction s as [| c t IH]; simpl; [reflexivity |].
  now rewrite lower_char_idempotent, IH.
Qed.

Lemma dict_get_absent :
  forall (V : Type) (d : list (string * V)) k default,
    (forall v, ~ In (k, v) d) -> Py.dict_get d k default = default.
Proof.
  induction d as [| [k' v'] d IH]; intros k default Habsent; simpl; [reflexivity |].
  destruct (String.eqb_spec k' k) as [-> | Hne].
  - elim (Habsent v'). now left.
  - apply IH. intros v Hin. apply (Habsent v). now right.
Qed.

(** X8. When the adapter answers, the analysis takes its score as the
    confidence and its label as the sentiment: a provider label of the
    mapping ([LABEL_0/1/2], [NEGATIVE/NEUTRAL/POSITIVE]) becomes negative,
    neutral or positive, any other label is lower-cased; intent, category,
    keywords and entities are those of the service without adapter. *)
Theorem analyzer_label_normalized :
  forall (analyzer : Analyzer) r query user_profile,
    analyzer query = Ok r ->
    let with_adapter :=
      analyze_financial_query {| sentiment_analyzer := Some analyzer |} query user_profile in
    let without :=
      analyze_financial_query {| sentiment_analyzer := None |} query user_profile in
    confidence with_adapter = score r /\
    (forall s, In (label r, s) label_mapping ->
       sentiment with_adapter = s /\ In s ["negative"; "neutral"; "positive"]) /\
    ((forall s, ~ In (label r, s) label_mapping) ->
       sentiment with_adapter = Py.lower (label r)) /\
    intent with_adapter = intent without /\
    category with_adapter = category without /\
    keywords with_adapter = keywords without /\
    entities with_adapter = entities without.
Proof.
  intros analyzer r query p Hok with_adapter without.
  unfold with_adapter, without, analyze_financial_query, analyze_sentiment.
  cbn [sentiment_analyzer]. rewrite Hok.
  destruct (classify_intent query) as [i c].
  cbv beta iota delta [bind try_except].
  cbn [confidence sentiment intent category keywords entities label score].
  split; [reflexivity |]. split; [| split; [| repeat split]].
  - intros s Hin. simpl in Hin.
    repeat (destruct Hin as [[= Hl <-] | Hin];
            [rewrite <- Hl; simpl; split; [reflexivity | tauto] |]).
    contradiction.
  - intros Habsent. rewrite (dict_get_absent _ _ _ _ Habsent). apply lower_idempotent.
Qed.

Lemma analyzer_label_normalized_witness :
  sentiment (analyze_financial_query
               {| sentiment_analyzer :=
                    Some (fun _ => Ok {| label := "LABEL_2"; score := 93 # 100 |}) |}
               "Should I invest?" new_profile) = "positive"
  /\ sentiment (analyze_financial_query
               {| sentiment_analyzer :=
                    Some (fun _ => Ok {| label := "Mixed"; score := 1 # 2 |}) |}
               "Should I invest?" new_profile) = "mixed".
Proof.
  split.
  - apply (analyzer_label_normalized
             (fun _ => Ok {| label := "LABEL_2"; score := 93 # 100 |})
             {| label := "LABEL_2"; score := 93 # 100 |}
             "Should I invest?" new_profile eq_refl).
    simpl. tauto.
  - apply (analyzer_label_normalized
             (fun _ => Ok {| label := "Mixed"; score := 1 # 2 |})
             {| label := "Mixed"; score := 1 # 2 |}
             "Should I invest?" new_profile eq_refl).
    intros s Hin. simpl in Hin.
    repeat (destruct Hin as [Hin | Hin]; [discriminate Hin |]). exact Hin.
Defined.

(** ** What every analysis satisfies *)

Lemma classify_intent_range :
  forall query,
    let '(intent, category) := classify_intent query in
    (intent = "general_financial_advice" \/ In intent (map fst financial_intents)) /\
    category = Py.split_head "_" intent /\
    In category ["savings"; "investment"; "budgeting"; "debt"; "tax"; "financial"; "general"].
Proof.
  intros query.
  destruct (classify_intent_first_maximal query)
    as [[_ Hgeneral] | [before [best [after [Htable [Hbest _]]]]]].
  - rewrite Hgeneral. split; [now left |]. split; [reflexivity |]. simpl. tauto.
  - rewrite Hbest.
    assert (Hin : In (fst best) (map fst financial_intents)).
    { rewrite Htable, map_app. apply in_or_app. right. now left. }
    split; [now right |]. split; [reflexivity |].
    simpl in Hin.
    repeat (destruct Hin as [<- | Hin]; [simpl; tauto |]). contradiction.
Qed.

Lemma extract_keywords_length :
  forall text, length (extract_keywords text) <= 5.
Proof. intros text. apply firstn_le_length. Qed.

(** X9. Every analysis, with or without adapter, keeps the query as
    given, has the general intent or an intent of the table, has as
    category the intent up to its first '_', which is one of savings,
    investment, budgeting, debt, tax, financial and general, and has at most
    5 keywords and at most 18 entities. *)
Theorem analysis_well_formed :
  forall self query user_profile,
    let q := analyze_financial_query self query user_profile in
    original_query q = query /\
    (intent q = "general_financial_advice" \/ In (intent q) (map fst financial_intents)) /\
    category q = Py.split_head "_" (intent q) /\
    In (category q)
       ["savings"; "investment"; "budgeting"; "debt"; "tax"; "financial"; "general"] /\
    length (keywords q) <= 5 /\
    length (entities q) <= 18.
Proof.
  intros self query p q. unfold q, analyze_financial_query.
  pose proof (classify_intent_range query) as Hrange.
  destruct (classify_intent query) as [i c].
  cbv beta iota delta [bind try_except].
  cbn [original_query intent category keywords entities].
  destruct Hrange as [Hi [Hc Hin]].
  repeat split; try assumption.
  - apply extract_keywords_length.
  - apply extract_entities_length.
Qed.

(** X10. Without adapter the analysis reads the query through its lower
    case only: two queries that differ in the case of their letters get the
    same intent, category, sentiment, confidence, keywords and entities. *)
Theorem analysis_case_insensitive :
  forall self query1 query2 user_profile,
    sentiment_analyzer self = None ->
    Py.lower query1 = Py.lower query2 ->
    let q1 := analyze_financial_query self query1 user_profile in
    let q2 := analyze_financial_query self query2 user_profile in
    intent q1 = intent q2 /\ category q1 = category q2 /\
    sentiment q1 = sentiment q2 /\ confidence q1 = confidence q2 /\
    keywords q1 = keywords q2 /\ entities q1 = entities q2.
Proof.
  intros self query1 query2 p Hnone Hlower q1 q2.
  assert (Hclassify : classify_intent query1 = classify_intent query2).
  { unfold classify_intent. now rewrite Hlower. }
  assert (Hsentiment : analyze_sentiment self query1 = analyze_sentiment self query2).
  { rewrite !(analyze_sentiment_without_analyzer _ _ Hnone).
    unfold fallback_sentiment_analysis, positive_count, negative_count.
    now rewrite Hlower. }
  assert (Hkeywords : extract_keywords query1 = extract_keywords query2).
  { unfold extract_keywords, extract_keywords_with, re_findall_words.
    cbv beta iota delta [bind try_except]. now rewrite Hlower. }
  assert (Hentities : extract_entities query1 = extract_entities query2).
  { unfold extract_entities. now rewrite Hlower. }
  unfold q1, q2, analyze_financial_query.
  rewrite Hclassify, Hsentiment, Hkeywords, Hentities.
  destruct (classify_intent query2) as [i c].
  repeat split.
Qed.

Lemma analysis_case_insensitive_witness :
  let q1 := analyze_financial_query {| sentiment_analyzer := None |}
              "HOW do I SAVE Money?" new_profile in
  let q2 := analyze_financial_query {| sentiment_analyzer := None |}
              "how do i save money?" new_profile in
  intent q1 = intent q2 /\ category q1 = category q2 /\
  sentiment q1 = sentiment q2 /\ confidence q1 = confidence q2 /\
  keywords q1 = keywords q2 /\ entities q1 = entities q2.
Proof.
  apply (analysis_case_insensitive {| sentiment_analyzer := None |}
           "HOW do I SAVE Money?" "how do i save money?" new_profile eq_refl).
  reflexivity.
Defined.

Lemma fallback_label_lower :
  forall text,
    Py.lower (label (fallback_sentiment_analysis text))
    = label (fallback_sentiment_analysis text).
Proof.
  intros text. unfold fallback_sentiment_analysis.
  destruct (negative_count text <? positive_count text)%nat; [reflexivity |].
  destruct (positive_count text <? negative_count text)%nat; reflexivity.
Qed.

(** X11. Without adapter the analysis is the fallback analysis with the
    entities filled in: the two agree on query, intent, category, sentiment,
    confidence and keywords, and the fallback analysis has no entities. *)
Theorem analysis_extends_fallback :
  forall self query user_profile,
    sentiment_analyzer self = None ->
    let q := analyze_financial_query self query user_profile in
    let f := fallback_query_analysis query in
    original_query q = original_query f /\
    intent q = intent f /\ category q = category f /\
    sentiment q = sentiment f /\ confidence q = confidence f /\
    keywords q = keywords f /\
    entities q = extract_entities query /\ entities f = [].
Proof.
  intros self query p Hnone q f.
  unfold q, f, analyze_financial_query, fallback_query_analysis.
  rewrite (analyze_sentiment_without_analyzer _ _ Hnone).
  destruct (classify_intent query) as [i c].
  cbv beta iota delta [bind try_except].
  cbn [original_query intent category sentiment confidence keywords entities].
  rewrite fallback_label_lower. repeat split.
Qed.

Lemma analysis_extends_fallback_witness :
  let q := analyze_financial_query {| sentiment_analyzer := None |}
             "my monthly budget" new_profile in
  let f := fallback_query_analysis "my monthly budget" in
  original_query q = original_query f /\
  intent q = intent f /\ category q = category f /\
  sentiment q = sentiment f /\ confidence q = confidence f /\
  keywords q = keywords f /\
  entities q = extract_entities "my monthly budget" /\ entities f = [].
Proof.
  apply (analysis_extends_fallback {| sentiment_analyzer := None |}
           "my monthly budget" new_profile eq_refl).
Defined.

(** ** The template banks *)

Lemma dict_get_cons :
  forall (V : Type) k' (v : V) d k default,
    Py.dict_get ((k', v) :: d) k default
    = if String.eqb k' k then v else Py.dict_get d k default.
Proof. reflexivity. Qed.

Lemma dict_get_nil :
  forall (V : Type) k (default : V), Py.dict_get [] k default = default.
Proof. reflexivity. Qed.

Lemma dict_item_cons :
  forall (V : Type) k' (v : V) d k,
    Py.dict_item ((k', v) :: d) k
    = if String.eqb k' k then Ok v else Py.dict_item d k.
Proof. reflexivity. Qed.

(** X12. A student always gets the friendly tone, the simple level and
    four recommendations.  The bucket is chosen by the category of the
    query: investment and budgeting have their own, every other category,
    known or not, gets the savings bucket; the budgeting bucket has neither
    resources nor follow-up questions. *)
Theorem student_response_buckets :
  forall query user_profile,
    user_type user_profile = Some STUDENT ->
    let r := generate_personalized_response query user_profile in
    tone r = "friendly and educational" /\
    complexity_level r = "simple" /\
    length (recommendations r) = 4 /\
    (category query <> "investment" -> category query <> "budgeting" ->
       content r = Py.strip (student_savings_content user_profile) /\
       length (additional_resources r) = 3 /\ length (follow_up_questions r) = 3) /\
    (category query = "investment" ->
       content r = Py.strip student_investment_content /\
       length (additional_resources r) = 3 /\ length (follow_up_questions r) = 3) /\
    (category query = "budgeting" ->
       content r = Py.strip student_budgeting_content /\
       additional_resources r = [] /\ follow_up_questions r = []).
Proof.
  intros q p Hstudent r.
  unfold r, generate_personalized_response, generate_personalized_response_with,
    dispatch_response.
  rewrite Hstudent. cbn [service_generators student_response].
  unfold generate_student_response, student_base_responses.
  rewrite dict_item_cons, String.eqb_refl.
  cbv beta iota delta [bind try_except].
  rewrite !dict_get_cons, !dict_get_nil, String.eqb_refl.
  destruct (String.eqb_spec "savings" (category q)) as [Hs | Hs];
    [| destruct (String.eqb_spec "investment" (category q)) as [Hi | Hi];
       [| destruct (String.eqb_spec "budgeting" (category q)) as [Hb | Hb]]];
    cbn [content tone complexity_level recommendations additional_resources
         follow_up_questions data_content data_recommendations data_resources
         data_follow_ups get_or length];
    repeat split; try reflexivity; intros; try congruence.
Qed.

Lemma student_response_buckets_witness :
  let p := with_user_type new_profile STUDENT in
  let r := generate_personalized_response
             (fallback_query_analysis "How do I pay off my credit card debt?") p in
  category (fallback_query_analysis "How do I pay off my credit card debt?") = "debt" /\
  content r = Py.strip (student_savings_content p) /\
  length (recommendations r) = 4.
Proof.
  intros p r. split; [reflexivity |].
  pose proof (student_response_buckets
                (fallback_query_analysis "How do I pay off my credit card debt?")
                p eq_refl) as [_ [_ [Hrec [Hdefault _]]]].
  split; [| exact Hrec].
  apply Hdefault; discriminate.
Defined.

(** X13. A professional always gets the professional tone, the advanced
    level and the three default follow-up questions.  The savings category
    has its own bucket, which has no recommendations and no resources; every
    other category, known or not, gets the investment bucket with its five
    recommendations and three resources. *)
Theorem professional_response_buckets :
  forall query user_profile,
    user_type user_profile = Some PROFESSIONAL ->
    let r := generate_personalized_response query user_profile in
    tone r = "professional and detailed" /\
    complexity_level r = "advanced" /\
    follow_up_questions r
      = ["What's your current asset allocation?";
         "Are you maximizing all tax-advantaged accounts?";
         "Would you like specific fund recommendations?"] /\
    (category query = "savings" ->
       content r = Py.strip professional_savings_content /\
       recommendations r = [] /\ additional_resources r = []) /\
    (category query <> "savings" ->
       content r = Py.strip (professional_investment_content user_profile) /\
       length (recommendations r) = 5 /\ length (additional_resources r) = 3).
Proof.
  intros q p Hprofessional r.
  unfold r, generate_personalized_response, generate_personalized_response_with,
    dispatch_response.
  rewrite Hprofessional. cbn [service_generators professional_response].
  unfold generate_professional_response, professional_base_responses.
  rewrite dict_item_cons, String.eqb_refl.
  cbv beta iota delta [bind try_except].
  rewrite !dict_get_cons, !dict_get_nil, String.eqb_refl.
  destruct (String.eqb_spec "investment" (category q)) as [Hi | Hi];
    [| destruct (String.eqb_spec "savings" (category q)) as [Hs | Hs]];
    cbn [content tone complexity_level recommendations additional_resources
         follow_up_questions data_content data_recommendations data_resources
         data_follow_ups get_or length];
    repeat split; try reflexivity; intros; try congruence.
Qed.

Lemma professional_response_buckets_witness :
  let p := with_user_type new_profile PROFESSIONAL in
  let r := generate_personalized_response
             (fallback_query_analysis "How should I save money?") p in
  category (fallback_query_analysis "How should I save money?") = "savings" /\
  recommendations r = [] /\
  length (follow_up_questions r) = 3.
Proof.
  intros p r. split; [reflexivity |].
  pose proof (professional_response_buckets
                (fallback_query_analysis "How should I save money?")
                p eq_refl) as [_ [_ [Hfollow [Hsavings _]]]].
  split.
  - apply Hsavings. reflexivity.
  - unfold r. rewrite Hfollow. reflexivity.
Defined.

(** ** Goal tracking and insights *)

Lemma py_max_floor : forall a : Q, (25 <= py_max a 25)%Q.
Proof.
  intros a. unfold py_max. destruct (Qle_bool 25 a) eqn:Hle; simpl.
  - now apply Qle_bool_iff.
  - apply Qle_refl.
Qed.

Lemma months_to_goal_returns :
  forall monthly_expenses goal,
    months_to_goal monthly_expenses goal
    = Ok (target_amount goal / py_max (monthly_expenses * (1 # 10)) 25)%Q.
Proof.
  intros e goal. unfold months_to_goal, py_div.
  destruct (Qeq_bool (py_max (e * (1 # 10)) 25) 0) eqn:Hzero; [| reflexivity].
  apply Qeq_bool_eq in Hzero.
  pose proof (py_max_floor (e * (1 # 10))%Q) as Hfloor.
  rewrite Hzero in Hfloor. exfalso. revert Hfloor. apply Qlt_not_le. reflexivity.
Qed.

Lemma goal_tracking_positive :
  forall monthly_expenses goals,
    (0 < monthly_expenses)%Q ->
    goal_tracking monthly_expenses goals
    = Ok (map (fun goal =>
                 (goal, (target_amount goal / py_max (monthly_expenses * (1 # 10)) 25)%Q))
              goals).
Proof.
  intros e goals Hpos.
  assert (Hguard : Qle_bool e 0 = false).
  { destruct (Qle_bool e 0) eqn:Hle; [| reflexivity].
    apply Qle_bool_iff in Hle. exfalso. apply (Qlt_not_le _ _ Hpos Hle). }
  induction goals as [| goal goals IH]; simpl; [reflexivity |].
  rewrite Hguard, months_to_goal_returns, IH. reflexivity.
Qed.

Lemma goal_tracking_not_positive :
  forall monthly_expenses goals,
    (monthly_expenses <= 0)%Q -> goal_tracking monthly_expenses goals = Ok [].
Proof.
  intros e goals Hle. apply Qle_bool_iff in Hle.
  induction goals as [| goal goals IH]; simpl; [reflexivity |].
  rewrite Hle. exact IH.
Qed.

(** X14. Goal tracking of the student summary.  With positive monthly
    expenses every goal gets a line, in the order of the profile, with
    months to goal = target amount / max(expenses * 0.1, 25); the divisor is
    never below 25, so the division never raises, and it is a tenth of the
    expenses from 250 on.  Without positive expenses no goal is listed. *)
Theorem goal_tracking_floor :
  forall user_profile,
    let expenses := num_or_zero (monthly_expenses user_profile) in
    let potential := py_max (expenses * (1 # 10)) 25 in
    ((0 < expenses)%Q ->
       student_goal_tracking user_profile
       = Ok (map (fun goal => (goal, (target_amount goal / potential)%Q))
                 (financial_goals user_profile))) /\
    ((expenses <= 0)%Q -> student_goal_tracking user_profile = Ok []) /\
    (25 <= potential)%Q /\
    ((250 <= expenses)%Q -> potential = (expenses * (1 # 10))%Q) /\
    ((expenses <= 250)%Q -> (potential == 25)%Q).
Proof.
  intros p expenses potential. unfold student_goal_tracking. fold expenses.
  split; [| split; [| split; [| split]]].
  - apply goal_tracking_positive.
  - apply goal_tracking_not_positive.
  - apply py_max_floor.
  - intros Hbig. unfold potential, py_max.
    assert (Hle : (25 <= expenses * (1 # 10))%Q).
    { setoid_replace 25%Q with (250 * (1 # 10))%Q by reflexivity.
      apply Qmult_le_compat_r; [exact Hbig | discriminate]. }
    apply Qle_bool_iff in Hle. rewrite Hle. reflexivity.
  - intros Hsmall. unfold potential, py_max.
    destruct (Qle_bool 25 (expenses * (1 # 10))) eqn:Hle; simpl; [| reflexivity].
    apply Qle_bool_iff in Hle. apply Qle_antisym; [| exact Hle].
    setoid_replace 25%Q with (250 * (1 # 10))%Q by reflexivity.
    apply Qmult_le_compat_r; [exact Hsmall | discriminate].
Qed.

Lemma goal_tracking_floor_witness :
  let p := add_financial_goal "laptop" (1000 # 1) "1 year" "High"
             {| user_id := None; name := None; user_type := Some STUDENT;
                age_range := None; income_level := None; financial_goals := [];
                risk_tolerance := None; communication_preference := None;
                location := None; employment_status := None;
                monthly_expenses := Some (100 # 1)%Q;
                current_savings := None; debt_amount := None |} in
  student_goal_tracking p
  = Ok (map (fun goal =>
               (goal, (target_amount goal / py_max ((100 # 1) * (1 # 10)) 25)%Q))
            (financial_goals p)).
Proof.
  intro p. apply (proj1 (goal_tracking_floor p)). reflexivity.
Defined.

(** X15. The spending insights depend on the user type only: six for a
    student, six others for a professional, four without a user type; the
    cut at six never removes an insight and the error message is never
    returned. *)
Theorem spending_insights_count :
  forall user_profile,
    get_spending_insights user_profile
    = match user_type user_profile with
      | Some STUDENT => student_insights
      | Some PROFESSIONAL => professional_insights
      | None => general_insights
      end /\
    4 <= length (get_spending_insights user_profile) <= 6 /\
    (length (get_spending_insights user_profile) = 6 <-> user_type user_profile <> None) /\
    get_spending_insights user_profile <> error_insights.
Proof.
  intros p. unfold get_spending_insights.
  destruct (user_type p) as [[|] |]; simpl;
    repeat split; try lia; try discriminate; intros H; try discriminate H;
    try (now elim H).
Qed.

(** ** Tokens *)








(** ** The mock service *)

Lemma watson_classify_in_first_match :
  forall table query,
    (Watson.classify_in table query = ("general_financial_advice", "general") /\
     Forall (fun entry => forall term, In term (snd entry) ->
                                       Py.contains term query = false) table)
    \/
    (exists before intent terms after term,
       table = (before ++ (intent, terms) :: after)%list /\
       Watson.classify_in table query = (intent, Py.split_head "_" intent) /\
       In term terms /\ Py.contains term query = true /\
       Forall (fun entry => forall term', In term' (snd entry) ->
                                          Py.contains term' query = false) before).
Proof.
  induction table as [| [intent terms] table IH]; intros query; simpl.
  - left. split; [reflexivity | constructor].
  - destruct (existsb (fun term => Py.contains term query) terms) eqn:Hany.
    + right. apply existsb_exists in Hany. destruct Hany as [term [Hin Hfound]].
      exists [], intent, terms, table, term. repeat split; auto.
    + assert (Hnone : forall term, In term terms -> Py.contains term query = false).
      { intros term Hin. destruct (Py.contains term query) eqn:Hfound; [| reflexivity].
        assert (Hex : existsb (fun t => Py.contains t query) terms = true).
        { apply existsb_exists. now exists term. }
        congruence. }
      destruct (IH query) as [[Hgeneral Hall] | [before [i [ts [after [term H]]]]]].
      * left. split; [exact Hgeneral |]. constructor; assumption.
      * right. destruct H as [Htable [Hclass [Hin [Hfound Hbefore]]]].
        exists ((intent, terms) :: before), i, ts, after, term.
        split; [simpl; now rewrite Htable |].
        split; [exact Hclass |]. split; [exact Hin |]. split; [exact Hfound |].
        constructor; assumption.
Qed.

(** X16. The mock service classifies by first match: the intent is the
    first one of its table that has some term inside the query, with the
    intent up to its first '_' as category, and the general intent when no
    term of the table is inside the query.  The keywords passed along are
    ignored. *)
Theorem watson_classify_first_match :
  forall query keywords,
    (Watson.classify_financial_intent query keywords
       = ("general_financial_advice", "general") /\
     Forall (fun entry => forall term, In term (snd entry) ->
                                       Py.contains term query = false)
            Watson.financial_intents)
    \/
    (exists before intent terms after term,
       Watson.financial_intents = (before ++ (intent, terms) :: after)%list /\
       Watson.classify_financial_intent query keywords
         = (intent, Py.split_head "_" intent) /\
       In term terms /\ Py.contains term query = true /\
       Forall (fun entry => forall term', In term' (snd entry) ->
                                          Py.contains term' query = false) before).
Proof.
  intros query keywords. apply watson_classify_in_first_match.
Qed.


(** ** Saving and loading profiles *)

Lemma read_write_same :
  forall fs path text,
    ProfileService.read_file (ProfileService.write_file fs path text) path = Some text.
Proof.
  induction fs as [| [p c] fs IH]; intros path text; simpl.
  - now rewrite String.eqb_refl.
  - destruct (String.eqb p path) eqn:Heq; simpl; rewrite Heq; [reflexivity | apply IH].
Qed.

Lemma read_write_other :
  forall fs path text other,
    other <> path ->
    ProfileService.read_file (ProfileService.write_file fs path text) other
    = ProfileService.read_file fs other.
Proof.
  induction fs as [| [p c] fs IH]; intros path text other Hne; simpl.
  - destruct (String.eqb_spec path other) as [-> | _]; [now elim Hne | reflexivity].
  - destruct (String.eqb_spec p path) as [-> | Hp]; simpl.
    + destruct (String.eqb_spec path other) as [-> | _]; [now elim Hne | reflexivity].
    + destruct (String.eqb p other); [reflexivity | now apply IH].
Qed.

(** X18. Profiles are never persisted.  [save_profile] returns False for
    every profile: when the file can be opened it is left empty, any earlier
    content lost, and [profile_exists] then answers True; no other file is
    touched.  [load_profile] returns None for every file system and user
    id, so a saved profile is never read back. *)
Theorem profiles_never_persist :
  forall writable json_load data_dir fs profile,
    let path := ProfileService.profile_path data_dir (user_id profile) in
    let saved := ProfileService.save_profile writable data_dir fs profile in
    fst saved = false /\
    (writable path = true ->
       ProfileService.read_file (snd saved) path = Some "" /\
       ProfileService.profile_exists data_dir (snd saved) (user_id profile) = true) /\
    (writable path = false -> snd saved = fs) /\
    (forall other, other <> path ->
       ProfileService.read_file (snd saved) other = ProfileService.read_file fs other) /\
    (forall fs0 uid, ProfileService.load_profile json_load data_dir fs0 uid = None).
Proof.
  intros writable json_load data_dir fs profile path saved.
  unfold saved, ProfileService.save_profile. fold path.
  destruct (writable path) eqn:Hw; cbn [ProfileService.to_dict fst snd].
  - split; [reflexivity |]. split; [| split; [discriminate | split]].
    + intros _. unfold ProfileService.profile_exists, ProfileService.path_exists.
      fold path. unfold ProfileService.truncate. rewrite read_write_same. now split.
    + intros other Hne. unfold ProfileService.truncate. now apply read_write_other.
    + intros fs0 uid. unfold ProfileService.load_profile.
      destruct (ProfileService.read_file fs0 _); [| reflexivity].
      destruct (json_load s); reflexivity.
  - split; [reflexivity |]. split; [discriminate |]. split; [reflexivity |].
    split; [reflexivity |].
    intros fs0 uid. unfold ProfileService.load_profile.
    destruct (ProfileService.read_file fs0 _); [| reflexivity].
    destruct (json_load s); reflexivity.
Qed.

Lemma profiles_never_persist_witness :
  let ada := {| user_id := Some "ada"; name := Some "Ada"; user_type := Some STUDENT;
                age_range := None; income_level := None; financial_goals := [];
                risk_tolerance := None; communication_preference := None;
                location := None; employment_status := None;
                monthly_expenses := None; current_savings := None;
                debt_amount := None |} in
  let fs := [("data/profile_ada.json", "{}"); ("data/profile_bob.json", "{}")] in
  let saved := ProfileService.save_profile (fun _ => true) "data" fs ada in
  ProfileService.read_file (snd saved) "data/profile_ada.json" = Some "" /\
  ProfileService.profile_exists "data" (snd saved) (Some "ada") = true.
Proof.
  intros ada fs saved.
  apply (profiles_never_persist (fun _ => true) (fun text => ProfileService.Done text)
           "data" fs ada).
  reflexivity.
Defined.

(** ** Longer queries *)

Lemma prefix_app_l :
  forall w a b, String.prefix w a = true -> String.prefix w (a ++ b) = true.
Proof.
  induction w as [| c w IH]; intros a b H.
  - now destruct (a ++ b).
  - destruct a as [| c' a]; simpl in *; [discriminate |].
    destruct (ascii_dec c c'); [now apply IH | discriminate].
Qed.

Lemma contains_app_l :
  forall w a b, Py.contains w a = true -> Py.contains w (a ++ b) = true.
Proof.
  induction a as [| c a IH]; intros b H.
  - cbn [Py.contains] in H. rewrite orb_false_r in H.
    destruct w; [| discriminate]. now destruct b.
  - cbn [Py.contains] in H. apply orb_prop in H.
    change (String c a ++ b) with (String c (a ++ b)). cbn [Py.contains].
    destruct H as [H | H].
    + change (String c (a ++ b)) with (String c a ++ b).
      rewrite (prefix_app_l _ _ _ H). reflexivity.
    + rewrite (IH b H). apply orb_true_r.
Qed.

Lemma contains_inside :
  forall w before text after,
    Py.contains w text = true -> Py.contains w (before ++ text ++ after) = true.
Proof. intros w before text after H. now apply contains_app_r, contains_app_l. Qed.

Lemma count_if_monotone :
  forall (A : Type) (p q : A -> bool) xs,
    (forall x, p x = true -> q x = true) -> Py.count_if p xs <= Py.count_if q xs.
Proof.
  intros A p q xs Hpq. induction xs as [| x xs IH]; [reflexivity |].
  rewrite !count_if_cons. destruct (p x) eqn:Hp.
  - rewrite (Hpq x Hp). lia.
  - destruct (q x); lia.
Qed.

(** X19. Text put before or after a query never lowers a score: every
    intent scores on the longer query at least what it scored on the query,
    and so do the positive and the negative sentiment counts. *)
Theorem scores_grow_with_text :
  forall before query after,
    (forall keywords,
       intent_score (Py.lower query) keywords
       <= intent_score (Py.lower (before ++ query ++ after)) keywords) /\
    positive_count query <= positive_count (before ++ query ++ after) /\
    negative_count query <= negative_count (before ++ query ++ after).
Proof.
  intros before query after.
  assert (Hgrow : forall w, Py.contains w (Py.lower query) = true ->
                            Py.contains w (Py.lower (before ++ query ++ after)) = true).
  { intros w H. rewrite !lower_app. now apply contains_inside. }
  repeat split; try intros keywords; apply count_if_monotone; exact Hgrow.
Qed.

(** ** The service as shipped *)

(** X20. The service is always built without a model: whatever the
    environment and the outcome of loading the pipeline, the analysis is the
    one of the lexicon path, its sentiment and confidence are one of
    positive 0.7, negative 0.7 and neutral 0.6, and the confidence lies
    between 0 and 1. *)
Theorem shipped_service_is_lexicon_only :
  forall transformers_available pipeline query user_profile,
    let q := analyze_financial_query
               (new_service transformers_available pipeline) query user_profile in
    q = analyze_financial_query {| sentiment_analyzer := None |} query user_profile /\
    ((sentiment q = "positive" /\ confidence q = (7 # 10)%Q) \/
     (sentiment q = "negative" /\ confidence q = (7 # 10)%Q) \/
     (sentiment q = "neutral" /\ confidence q = (6 # 10)%Q)) /\
    (0 <= confidence q <= 1)%Q.
Proof.
  intros ta pl query p q. split; [reflexivity |].
  unfold q, analyze_financial_query.
  rewrite (analyze_sentiment_without_analyzer _ _ (new_service_has_no_analyzer ta pl)).
  destruct (classify_intent query) as [i c].
  cbv beta iota delta [bind try_except]. cbn [sentiment confidence].
  unfold fallback_sentiment_analysis.
  destruct (negative_count query <? positive_count query)%nat;
    [| destruct (positive_count query <? negative_count query)%nat];
    cbn [label score]; (split; [simpl; tauto | split; discriminate]).
Qed.
